(** * civitai-scraper: the download-and-record pipeline

    A shallow embedding of the parts of [civitai_scraper.py] that decide the
    behaviour of the concurrent download pipeline: the content sniffer
    ([_detect_image_format]), the rating normalisation
    ([_convert_nsfw_to_level]), the page filters of [scrape], the ledger
    operations ([_is_downloaded_db], [_log_download_db]), the per-item worker
    ([download_image]), the retry wrapper ([_download_with_retry]) and the
    batch dispatcher ([_download_batch]); then the page loop of [scrape]
    with [build_query_params] and [fetch_images], and the text log
    ([_log_download], [_load_download_log]).

    Conventions of the embedding:
    - [bytes] objects are [list byte]; text is [string] (ASCII);
    - loosely typed JSON scalars are values of [pyval];
    - the instance attributes that never change after [__init__] form a
      [Scraper]; everything the worker reads and writes (ledger tables, the
      text log, files, counters, the log, the requests sent, the sleeps)
      is a field of [World];
    - code inside [try] runs in a small state-and-exception monad. *)

From Stdlib Require Import ZArith String Ascii List Bool Lia.
From Stdlib Require Import Strings.Byte Numbers.DecimalString.
From stdpp Require Import base decidable option list gmap strings.

Import ListNotations.
Local Open Scope string_scope.
Local Open Scope list_scope.
Local Open Scope Z_scope.

(* ===================================================================== *)
(** ** Byte strings *)
(* ===================================================================== *)

Abbreviation bytes := (list byte).

#[global] Instance byte_eq_decision : EqDecision byte := Byte.byte_eq_dec.

Module Bytes.

(** [b"..."] literals with printable characters. *)
Definition lit (s : string) : bytes := list_byte_of_string s.

(** Python's [data[a:b]] for [0 <= a <= b]. *)
Definition slice (a b : nat) (data : bytes) : bytes :=
  take (b - a) (drop a data).

(** [data.startswith(p)]. *)
Fixpoint startswith (p data : bytes) : bool :=
  match p, data with
  | [], _ => true
  | _ :: _, [] => false
  | x :: p', y :: data' => bool_decide (x = y) && startswith p' data'
  end.

(** [p in data]: [p] occurs as a contiguous run of [data]. *)
Fixpoint contains (p data : bytes) : bool :=
  startswith p data
  || match data with
     | [] => false
     | _ :: data' => contains p data'
     end.


End Bytes.

(* ===================================================================== *)
(** ** Content sniffer *)
(* ===================================================================== *)

Module Sniffer.
Import Bytes.

Definition ftypmp42 : bytes := lit "ftypmp42".
Definition ftypisom : bytes := lit "ftypisom".
Definition webm_sig : bytes := [x1a; x45; xdf; xa3].
Definition flv_sig : bytes := lit "FLV".
Definition png_sig : bytes := [x89; x50; x4e; x47; x0d; x0a; x1a; x0a].
Definition jpeg_sig : bytes := [xff; xd8; xff].
Definition riff_sig : bytes := lit "RIFF".
Definition webp_tag : bytes := lit "WEBP".
Definition gif87a : bytes := lit "GIF87a".
Definition gif89a : bytes := lit "GIF89a".

(** [_detect_image_format(data)]: (extension, is_video). *)
Definition _detect_image_format (data : bytes) : string * bool :=
  if bool_decide (slice 4 12 data = ftypmp42)
     || bool_decide (slice 4 12 data = ftypisom) then (".mp4", true)
  else if bool_decide (slice 0 4 data = webm_sig) then (".webm", true)
  else if bool_decide (slice 0 3 data = flv_sig) then (".flv", true)
  else if startswith png_sig data then (".png", false)
  else if startswith jpeg_sig data then (".jpg", false)
  else if startswith riff_sig data && contains webp_tag (slice 0 12 data)
       then (".webp", false)
  else if startswith gif87a data || startswith gif89a data
       then (".gif", false)
  else (".jpg", false).


End Sniffer.

(* ===================================================================== *)
(** ** Python values *)
(* ===================================================================== *)

Module Py.

(** The scalars a decoded JSON field may hold: [None] (also a missing key
    read with [dict.get]), booleans, integers and strings.  Floats, lists
    and objects are outside the embedding. *)
Inductive pyval : Type :=
| PNone
| PBool (b : bool)
| PInt (z : Z)
| PStr (s : string).

#[global] Instance pyval_eq_decision : EqDecision pyval.
Proof. solve_decision. Defined.

(** Truth value, as tested by [if v:] and [v or w]. *)
Definition truthy (v : pyval) : bool :=
  match v with
  | PNone => false
  | PBool b => b
  | PInt z => negb (Z.eqb z 0)
  | PStr s => negb (String.eqb s "")
  end.

(** [a or b]. *)
Definition py_or (a b : pyval) : pyval := if truthy a then a else b.

(** [a == b]: booleans compare as the integers 0 and 1. *)
Definition py_eq (a b : pyval) : bool :=
  match a, b with
  | PNone, PNone => true
  | PBool x, PBool y => Bool.eqb x y
  | PBool x, PInt z | PInt z, PBool x => Z.eqb (Z.b2z x) z
  | PInt x, PInt y => Z.eqb x y
  | PStr s, PStr t => String.eqb s t
  | _, _ => false
  end.

(** [v in [x1, ..., xn]]. *)
Definition py_in (v : pyval) (l : list pyval) : bool := existsb (py_eq v) l.

(** [str(v)]. *)
Definition py_str (v : pyval) : string :=
  match v with
  | PNone => "None"
  | PBool true => "True"
  | PBool false => "False"
  | PInt z => NilZero.string_of_int (Z.to_int z)
  | PStr s => s
  end.

(** ASCII white space in the sense of [str.isspace]. *)
Definition is_space (c : ascii) : bool :=
  let n := nat_of_ascii c in
  ((9 <=? n) && (n <=? 13) || (28 <=? n) && (n <=? 31) || (n =? 32))%nat.

Definition is_digit (c : ascii) : bool :=
  let n := nat_of_ascii c in ((48 <=? n) && (n <=? 57))%nat.

Definition digit_value (c : ascii) : Z := Z.of_nat (nat_of_ascii c) - 48.

(** [s.lstrip()] and [s.strip()] for a notion of white space. *)
Fixpoint lstrip_by (space : ascii -> bool) (s : list ascii) : list ascii :=
  match s with
  | c :: s' => if space c then lstrip_by space s' else s
  | [] => []
  end.

Definition strip_by (space : ascii -> bool) (s : list ascii) : list ascii :=
  rev (lstrip_by space (rev (lstrip_by space s))).

(** [str.lstrip()] and [str.strip()]. *)
Definition lstrip : list ascii -> list ascii := lstrip_by is_space.
Definition strip : list ascii -> list ascii := strip_by is_space.

(** The white space that [int(str)] skips around an ASCII literal: tab,
    line feed, vertical tab, form feed, carriage return and space.  The
    separators 0x1c to 0x1f, which [str.isspace] accepts, are not among
    them. *)
Definition is_int_space (c : ascii) : bool :=
  let n := nat_of_ascii c in
  ((9 <=? n) && (n <=? 13) || (n =? 32))%nat.

(** [sys.int_info.default_max_str_digits]: [int(str)] raises a
    [ValueError] for a literal with more digits (CPython 3.11). *)
Definition int_max_str_digits : Z := 4300.

(** A decimal literal in the sense of [int(str)]: digits, where single
    underscores may separate digits. *)
Fixpoint parse_digits (acc : Z) (after_digit : bool) (s : list ascii)
  : option Z :=
  match s with
  | [] => if after_digit then Some acc else None
  | c :: s' =>
      if is_digit c then parse_digits (10 * acc + digit_value c) true s'
      else if Ascii.eqb c "_" then
        if after_digit then parse_digits acc false s' else None
      else None
  end.

(** [int(s)] for a string: [None] stands for [ValueError]. *)
Definition int_of_str (s : string) : option Z :=
  let literal := strip_by is_int_space (list_ascii_of_string s) in
  if int_max_str_digits <? Z.of_nat (length (List.filter is_digit literal))
  then None
  else
    match literal with
    | c :: body =>
        if Ascii.eqb c "+" then parse_digits 0 false body
        else if Ascii.eqb c "-" then Z.opp <$> parse_digits 0 false body
        else parse_digits 0 false (c :: body)
    | [] => None
    end.

(** [int(v)]: [None] stands for [ValueError] or [TypeError]. *)
Definition py_int (v : pyval) : option Z :=
  match v with
  | PNone => None
  | PBool b => Some (Z.b2z b)
  | PInt z => Some z
  | PStr s => int_of_str s
  end.

Definition upper_char (c : ascii) : ascii :=
  let n := nat_of_ascii c in
  if ((97 <=? n) && (n <=? 122))%nat then ascii_of_nat (n - 32) else c.

(** [s.upper()] on ASCII text. *)
Fixpoint upper (s : string) : string :=
  match s with
  | EmptyString => EmptyString
  | String c s' => String (upper_char c) (upper s')
  end.

End Py.

Export Py.

(* ===================================================================== *)
(** ** Logging *)
(* ===================================================================== *)

(** The records handed to [self.logger] at level INFO and above, by the call
    that produces them; [logger.debug] calls are left out. *)
Inductive log_event : Type :=
| WarnUnknownNsfw (nsfw_value : pyval)
| WarnInvalidWidth (v : pyval)
| WarnInvalidHeight (v : pyval)
| WarnNoMetaField (image_id : pyval)
| InfoDryRun (url filename : string)
| InfoDryRunSize (width height nsfw : pyval)
| WarnDownloadFailed (attempt max_retries : Z) (filename : string)
    (wait_time : Z) (status : string)
| WarnException (attempt max_retries : Z) (filename : string) (wait_time : Z)
| ErrorFailedAfter (max_retries : Z) (filename : string) (last_error : pyval)
| InfoDownloaded (filename : string)
| InfoSkipped (filename : string)
| ErrorFailed (filename status : string).

(* ===================================================================== *)
(** ** Content-rating normalisation *)
(* ===================================================================== *)

Module Rating.

(** [nsfw_mapping]. *)
Definition nsfw_mapping : list (string * Z) :=
  [("NONE", 0); ("SOFT", 1); ("MATURE", 2); ("MATURE+", 4); ("X", 5);
   ("XXX", 6)].

(** [dict.get] on a literal table. *)
Fixpoint mapping_get (m : list (string * Z)) (k : string) : option Z :=
  match m with
  | [] => None
  | (k', v) :: m' => if String.eqb k' k then Some v else mapping_get m' k
  end.

(** [_convert_nsfw_to_level(nsfw_value)]: the level and the warnings
    logged on the way. *)
Definition _convert_nsfw_to_level (nsfw_value : pyval)
  : Z * list log_event :=
  match nsfw_value with
  | PNone => (0, [])
  | _ =>
      match py_int nsfw_value with
      | Some level => (level, [])
      | None =>
          let nsfw_str := upper (py_str nsfw_value) in
          match mapping_get nsfw_mapping nsfw_str with
          | Some level => (level, [])
          | None => (0, [WarnUnknownNsfw nsfw_value])
          end
      end
  end.



(** [_get_nsfw_folder(nsfw_level)]. *)
Definition _get_nsfw_folder (nsfw_level : pyval) : string * list log_event :=
  let '(level, warnings) := _convert_nsfw_to_level nsfw_level in
  (if level <=? 1 then "SFW" else "NSFW", warnings).

End Rating.

(* ===================================================================== *)
(** ** Item descriptors *)
(* ===================================================================== *)

(** The [stats] object of an item: the reaction counts, a missing count
    being 0 (every read is [stats.get(key, 0)]). *)
Module Stats.
Record t : Type := mk {
  likeCount : Z;
  heartCount : Z;
  commentCount : Z;
  laughCount : Z;
  cryCount : Z
}.
End Stats.

(** A non-empty [meta] dict of an item.  [_extract_generation_params]
    converts three of its values with [int]:
    [meta.get('steps', meta.get('Steps'))],
    [meta.get('seed', meta.get('Seed'))] and [meta.get('Clip skip')], a
    missing key and a [null] being both [PNone].  Its other keys are text
    or a floating-point [cfgScale], and are kept in the JSON text
    [raw_params]. *)
Module Meta.
Record t : Type := mk {
  steps : pyval;
  seed : pyval;
  clip_skip : pyval;
  raw_params : string
}.
End Meta.

(** One entry of [data['items']], read with [item.get(key)]: a missing key
    and a [null] are both [PNone].  The same record stands for the
    [metadata] dict that [_download_batch] builds, which copies exactly
    these keys.  [stats] and [meta] are [None] when absent or empty (both
    are only tested for truth). *)
Module Item.
Record t : Type := mk {
  id : pyval;
  url : pyval;
  width : pyval;
  height : pyval;
  hash : pyval;
  nsfw : pyval;
  nsfwLevel : pyval;
  createdAt : pyval;
  postId : pyval;
  username : pyval;
  stats : option Stats.t;
  meta : option Meta.t;
  tags : list string
}.
End Item.

(* ===================================================================== *)
(** ** Page filters of [scrape] *)
(* ===================================================================== *)

Module Filters.
Import Rating.

(** [item.get('nsfwLevel') in [5, 6] or item.get('nsfw') in ['X', 'XXX']]. *)
Definition nsfw_only_keep (item : Item.t) : bool :=
  py_in (Item.nsfwLevel item) [PInt 5; PInt 6]
  || py_in (Item.nsfw item) [PStr "X"; PStr "XXX"].

(** The [if nsfw_only:] block. *)
Definition filter_nsfw_only (nsfw_only : bool) (items : list Item.t)
  : list Item.t :=
  if nsfw_only then List.filter nsfw_only_keep items else items.

(** [int(item.get(k, 0)) if item.get(k) else 0]; [None] stands for the
    [ValueError]/[TypeError] that the loop body catches. *)
Definition declared_side (v : pyval) : option Z :=
  if truthy v then py_int v else Some 0.

(** Body of the resolution loop: is the item appended? *)
Definition resolution_keep (min_resolution : Z) (item : Item.t) : bool :=
  match declared_side (Item.width item) with
  | None => false
  | Some width =>
      match declared_side (Item.height item) with
      | None => false
      | Some height =>
          let longer_side := Z.max width height in
          min_resolution <=? longer_side
      end
  end.

(** The [if min_resolution:] block; [None] and [Some 0] are both false. *)
Definition filter_min_resolution (min_resolution : option Z)
    (items : list Item.t) : list Item.t :=
  match min_resolution with
  | Some threshold =>
      if threshold =? 0 then items
      else List.filter (resolution_keep threshold) items
  | None => items
  end.

(** Body of the reactions loop. *)
Definition reactions_keep (min_reactions : Z) (item : Item.t) : bool :=
  match Item.stats item with
  | Some stats =>
      let total_reactions :=
        Stats.likeCount stats + Stats.heartCount stats
        + Stats.laughCount stats + Stats.cryCount stats in
      min_reactions <=? total_reactions
  | None => false
  end.

(** The [if min_reactions:] block. *)
Definition filter_min_reactions (min_reactions : option Z)
    (items : list Item.t) : list Item.t :=
  match min_reactions with
  | Some threshold =>
      if threshold =? 0 then items
      else List.filter (reactions_keep threshold) items
  | None => items
  end.

(** The filtering step of one page, in the order of [scrape]. *)
Definition filter_page (nsfw_only : bool) (min_resolution : option Z)
    (min_reactions : option Z) (items : list Item.t) : list Item.t :=
  filter_min_reactions min_reactions
    (filter_min_resolution min_resolution
       (filter_nsfw_only nsfw_only items)).

(** The raw rating signal the ledger normalises:
    [metadata.get('nsfwLevel') or metadata.get('nsfw')]. *)
Definition nsfw_raw (item : Item.t) : pyval :=
  py_or (Item.nsfwLevel item) (Item.nsfw item).

(** The normalised rating level of an item, as [_log_download_db] stores
    it: [None] when there is no signal. *)
Definition normalized_level (item : Item.t) : option Z :=
  match nsfw_raw item with
  | PNone => None
  | raw => Some (fst (_convert_nsfw_to_level raw))
  end.

(** The reading of the rating-only filter that the specification gives. *)
Definition level_is_adult (item : Item.t) : bool :=
  match normalized_level item with
  | Some level => (level =? 5) || (level =? 6)
  | None => false
  end.

(** An item with only the fields a filter looks at. *)
Definition item_of (width height nsfw nsfwLevel : pyval) : Item.t :=
  Item.mk PNone PNone width height PNone nsfw nsfwLevel PNone PNone PNone
    None None [].

End Filters.

(* ===================================================================== *)
(** ** Paths *)
(* ===================================================================== *)

(** Paths are texts with ['/'] as the separator; the names joined here are
    relative, so [a / b] is concatenation.  The directories are those
    that [__init__] and the worker make: a file name with a separator of
    its own names a directory that nothing here makes. *)
Module Path.

Definition join (a b : string) : string := a +:+ "/" +:+ b.

Definition is_sep (c : ascii) : bool := Ascii.eqb c "/".
Definition is_dot (c : ascii) : bool := Ascii.eqb c ".".

(** Split at the last character that satisfies [p]: the text before it,
    and the text from it on. *)
Fixpoint rsplit (p : ascii -> bool) (s : list ascii)
  : option (list ascii * list ascii) :=
  match s with
  | [] => None
  | c :: s' =>
      match rsplit p s' with
      | Some (before, rest) => Some (c :: before, rest)
      | None => if p c then Some ([], c :: s') else None
      end
  end.

(** Directory part (with its final separator) and final component. *)
Definition split_name (s : list ascii) : list ascii * list ascii :=
  match rsplit is_sep s with
  | Some (dir, c :: name) => (dir ++ [c], name)
  | _ => ([], s)
  end.

(** [os.path.splitext(p)]: the extension starts at the last dot of the
    final component, unless only dots come before it there. *)
Definition splitext (p : string) : string * string :=
  let '(dir, name) := split_name (list_ascii_of_string p) in
  match rsplit is_dot name with
  | Some (stem, ext) =>
      if forallb is_dot stem then (p, "")
      else (string_of_list_ascii (dir ++ stem), string_of_list_ascii ext)
  | None => (p, "")
  end.

(** [Path(p).suffix]: from the last dot of the final component, if that
    dot is neither its first nor its last character. *)
Definition suffix (p : string) : string :=
  let '(_, name) := split_name (list_ascii_of_string p) in
  match rsplit is_dot name with
  | Some (_ :: _, ext) =>
      match ext with
      | _ :: _ :: _ => string_of_list_ascii ext
      | _ => ""
      end
  | _ => ""
  end.

(** [Path(p).parent] for a path with a separator: the text before the
    last one. *)
Definition parent (p : string) : string :=
  match rsplit is_sep (list_ascii_of_string p) with
  | Some (dir, _) => string_of_list_ascii dir
  | None => "."
  end.

(** [str(p.relative_to(base))] for a path [p] that is [base], a
    separator and a rest: the rest. *)
Definition relative_to (base p : string) : string :=
  string_of_list_ascii
    (drop (S (String.length base)) (list_ascii_of_string p)).

(** Number of dots in a text. *)
Definition dots (s : list ascii) : nat := length (List.filter is_dot s).

(** [s.lstrip('.')]. *)
Fixpoint lstrip_dots (s : string) : string :=
  match s with
  | String c s' => if is_dot c then lstrip_dots s' else s
  | EmptyString => EmptyString
  end.

End Path.

(* ===================================================================== *)
(** ** The scraper object and the world it acts on *)
(* ===================================================================== *)

(** What one GET of a payload URL does: [session.get] or
    [raise_for_status] raises, or the body arrives as chunks and the
    stream then ends or raises. *)
Inductive response : Type :=
| ConnectionError (e : string)
| Body (chunks : list bytes) (broken : option string).

(** The attributes of [self] that are fixed by [__init__], together with
    the two outside functions the worker calls: the HTTP session (the
    answer to the n-th request of the run, by URL) and [json.dump]. *)
Record Scraper : Type := {
  output_dir : string;
  allowed_types : option (list string);
  use_database : bool;
  dry_run : bool;
  organize_by_nsfw : bool;
  enable_retry : bool;
  max_retries : Z;
  session : nat -> string -> response;
  json_dump : Item.t -> bytes
}.

Definition metadata_dir (self : Scraper) : string :=
  Path.join (output_dir self) "metadata".
Definition videos_dir (self : Scraper) : string :=
  Path.join (output_dir self) "videos".

(** A row of the [downloads] table.  [download_timestamp] is the wall
    clock and is left out; [tags_fetched] is not written by the insert
    and takes its column default. *)
Record DownloadRecord : Type := {
  rec_url : string;
  rec_filename : string;
  file_extension : string;
  file_size : Z;
  rec_width : option Z;
  rec_height : option Z;
  nsfw_level : option Z;
  status : string;
  error_message : option string;
  folder_path : option string;
  tags_fetched : bool;
  reaction_total : Z
}.

(** The tables behind [self.db_conn], keyed by [image_id].  The columns
    of [generation_params] are functions of the [meta] dict, which is
    what the table holds here. *)
Record Db : Type := {
  downloads : gmap string DownloadRecord;
  metadata : gmap string Item.t;
  generation_params : gmap string Meta.t;
  tag_names : gset string;
  image_tags : gset (string * string)
}.

(** The four outcome counters guarded by [stats_lock]. *)
Record Counters : Type := {
  downloaded_count : Z;
  skipped_count : Z;
  failed_count : Z;
  filtered_type_count : Z
}.

(** [DownloadStatistics], without its start time. *)
Record DownloadStatistics : Type := {
  total_downloaded : Z;
  total_bytes : Z
}.

Record World : Type := {
  db : Db;
  downloaded_ids : gset string;
  download_log : list string;
  files : gmap string bytes;
  requests : list string;
  sleeps : list Z;
  log : list log_event;
  counters : Counters;
  stats : DownloadStatistics
}.

Definition with_db (f : Db -> Db) (w : World) : World :=
  {| db := f (db w); downloaded_ids := downloaded_ids w;
     download_log := download_log w; files := files w;
     requests := requests w; sleeps := sleeps w; log := log w;
     counters := counters w; stats := stats w |}.

Definition with_text_log (f : gset string -> gset string)
    (g : list string -> list string) (w : World) : World :=
  {| db := db w; downloaded_ids := f (downloaded_ids w);
     download_log := g (download_log w); files := files w;
     requests := requests w; sleeps := sleeps w; log := log w;
     counters := counters w; stats := stats w |}.

Definition with_files (f : gmap string bytes -> gmap string bytes)
    (w : World) : World :=
  {| db := db w; downloaded_ids := downloaded_ids w;
     download_log := download_log w; files := f (files w);
     requests := requests w; sleeps := sleeps w; log := log w;
     counters := counters w; stats := stats w |}.

Definition with_requests (f : list string -> list string) (w : World)
  : World :=
  {| db := db w; downloaded_ids := downloaded_ids w;
     download_log := download_log w; files := files w;
     requests := f (requests w); sleeps := sleeps w; log := log w;
     counters := counters w; stats := stats w |}.

Definition with_sleeps (f : list Z -> list Z) (w : World) : World :=
  {| db := db w; downloaded_ids := downloaded_ids w;
     download_log := download_log w; files := files w;
     requests := requests w; sleeps := f (sleeps w); log := log w;
     counters := counters w; stats := stats w |}.

Definition with_log (f : list log_event -> list log_event) (w : World)
  : World :=
  {| db := db w; downloaded_ids := downloaded_ids w;
     download_log := download_log w; files := files w;
     requests := requests w; sleeps := sleeps w; log := f (log w);
     counters := counters w; stats := stats w |}.

Definition with_counters (f : Counters -> Counters) (w : World) : World :=
  {| db := db w; downloaded_ids := downloaded_ids w;
     download_log := download_log w; files := files w;
     requests := requests w; sleeps := sleeps w; log := log w;
     counters := f (counters w); stats := stats w |}.

Definition with_stats (f : DownloadStatistics -> DownloadStatistics)
    (w : World) : World :=
  {| db := db w; downloaded_ids := downloaded_ids w;
     download_log := download_log w; files := files w;
     requests := requests w; sleeps := sleeps w; log := log w;
     counters := counters w; stats := f (stats w) |}.

(* ===================================================================== *)
(** ** State and exceptions *)
(* ===================================================================== *)

(** A statement returns a value or raises; [Raise e] carries [str(e)].
    The world reached is kept in both cases. *)
Inductive result (A : Type) : Type :=
| Ok (a : A)
| Raise (e : string).
Arguments Ok {A} a.
Arguments Raise {A} e.

Definition M (A : Type) : Type := World -> result A * World.

Definition ret {A} (a : A) : M A := fun w => (Ok a, w).

Definition raise {A} (e : string) : M A := fun w => (Raise e, w).

Definition bind {A B} (c : M A) (k : A -> M B) : M B :=
  fun w =>
    match c w with
    | (Ok a, w') => k a w'
    | (Raise e, w') => (Raise e, w')
    end.

(** [try: c  except Exception as e: handler(str(e))]. *)
Definition try_except {A} (c : M A) (handler : string -> M A) : M A :=
  fun w =>
    match c w with
    | (Ok a, w') => (Ok a, w')
    | (Raise e, w') => handler e w'
    end.

Definition get {A} (f : World -> A) : M A := fun w => (Ok (f w), w).

Definition modify (f : World -> World) : M unit := fun w => (Ok tt, f w).

Declare Scope py_scope.
Delimit Scope py_scope with py.
Notation "x <- c ;; k" := (bind c (fun x => k))
  (at level 100, c at next level, right associativity) : py_scope.
Notation "c ;; k" := (bind c (fun _ => k))
  (at level 100, right associativity) : py_scope.

Local Open Scope py_scope.

(** [self.logger.<level>(...)] for each record of a list. *)
Definition log_all (events : list log_event) : M unit :=
  modify (with_log (fun l => l ++ events)).

(** The four ways one counter goes up by one. *)
Definition bump_downloaded (c : Counters) : Counters :=
  {| downloaded_count := downloaded_count c + 1;
     skipped_count := skipped_count c;
     failed_count := failed_count c;
     filtered_type_count := filtered_type_count c |}.

Definition bump_skipped (c : Counters) : Counters :=
  {| downloaded_count := downloaded_count c;
     skipped_count := skipped_count c + 1;
     failed_count := failed_count c;
     filtered_type_count := filtered_type_count c |}.

Definition bump_failed (c : Counters) : Counters :=
  {| downloaded_count := downloaded_count c;
     skipped_count := skipped_count c;
     failed_count := failed_count c + 1;
     filtered_type_count := filtered_type_count c |}.

Definition bump_filtered_type (c : Counters) : Counters :=
  {| downloaded_count := downloaded_count c;
     skipped_count := skipped_count c;
     failed_count := failed_count c;
     filtered_type_count := filtered_type_count c + 1 |}.

(** "Total processed", as the summary of [scrape] prints it. *)
Definition total_processed (c : Counters) : Z :=
  downloaded_count c + skipped_count c + failed_count c
  + filtered_type_count c.

(** Exactly one of the four counters went up, and by exactly one. *)
Definition one_counter_bumped (c c' : Counters) : Prop :=
  c' = bump_downloaded c \/ c' = bump_skipped c \/
  c' = bump_failed c \/ c' = bump_filtered_type c.

(** [with self.stats_lock: self.<counter> += 1]. *)
Definition incr_downloaded : M unit :=
  modify (with_counters bump_downloaded).

Definition incr_skipped : M unit :=
  modify (with_counters bump_skipped).

Definition incr_failed : M unit :=
  modify (with_counters bump_failed).

Definition incr_filtered_type : M unit :=
  modify (with_counters bump_filtered_type).

(** [self.stats.add_download(file_size)]. *)
Definition add_download (size : Z) : M unit :=
  modify (with_stats (fun s =>
    {| total_downloaded := total_downloaded s + 1;
       total_bytes := total_bytes s + size |})).

(* ===================================================================== *)
(** ** File system *)
(* ===================================================================== *)

Module Fs.

(** [path.exists()]. *)
Definition exists_ (path : string) : M bool :=
  get (fun w => bool_decide (is_Some (files w !! path))).

(** [os.remove(path)] of a file that is there. *)
Definition remove (path : string) : M unit :=
  modify (with_files (delete path)).

(** [open(path, 'wb')] followed by the writes: the file holds [content]. *)
Definition write (path : string) (content : bytes) : M unit :=
  modify (with_files (<[path := content]>)).

(** [os.rename(src, dst)] where [dst] is free. *)
Definition rename (src dst : string) : M unit :=
  modify (with_files (fun fs =>
    match fs !! src with
    | Some content => <[dst := content]> (delete src fs)
    | None => fs
    end)).

(** [path.stat().st_size]; 0 stands in for a file that is not there. *)
Definition st_size (path : string) : M Z :=
  get (fun w => Z.of_nat (length (default [] (files w !! path)))).

End Fs.

(* ===================================================================== *)
(** ** Persistence ledger *)
(* ===================================================================== *)

Module Ledger.
Import Rating.

(** A status that marks the identifier as satisfied. *)
Definition satisfied (r : DownloadRecord) : bool :=
  String.eqb (status r) "success" || String.eqb (status r) "migrated".

(** The query of [_is_downloaded_db] on the tables. *)
Definition is_downloaded (image_id : pyval) (d : Db) : bool :=
  match downloads d !! py_str image_id with
  | Some r => satisfied r
  | None => false
  end.

(** [_is_downloaded_db(image_id)]. *)
Definition _is_downloaded_db (image_id : pyval) : M bool :=
  get (fun w => is_downloaded image_id (db w)).

(** [int(metadata.get(k)) if metadata.get(k) else None], with the warning
    of the [except] branch. *)
Definition parse_dimension (warn : pyval -> log_event) (v : pyval)
  : option Z * list log_event :=
  if truthy v then
    match py_int v with
    | Some z => (Some z, [])
    | None => (None, [warn v])
    end
  else (None, []).

(** The integers that sqlite3 stores: binding a Python [int] outside 64
    bits raises an [OverflowError], before the statement runs. *)
Definition int64 (z : Z) : bool := (- 2 ^ 63 <=? z) && (z <? 2 ^ 63).

Definition int64_or_null (o : option Z) : bool :=
  match o with
  | Some z => int64 z
  | None => true
  end.

(** [str(e)] for that error. *)
Definition overflow_error : string :=
  "Python int too large to convert to SQLite INTEGER".

(** [_parse_int(value)]. *)
Definition _parse_int (value : pyval) : option Z :=
  match value with
  | PNone => None
  | _ => py_int value
  end.

(** Whether sqlite3 takes the integers of [_extract_generation_params]. *)
Definition params_storable (meta : Meta.t) : bool :=
  int64_or_null (_parse_int (Meta.steps meta))
  && int64_or_null (_parse_int (Meta.seed meta))
  && int64_or_null (_parse_int (Meta.clip_skip meta)).

(** [_store_generation_params(image_id, meta)] for a non-empty [meta]. *)
Definition _store_generation_params (image_id : string) (meta : Meta.t)
  : M unit :=
  if params_storable meta then
    modify (with_db (fun d =>
      {| downloads := downloads d; metadata := metadata d;
         generation_params := <[image_id := meta]> (generation_params d);
         tag_names := tag_names d; image_tags := image_tags d |}))
  else raise overflow_error.

(** [_store_tags(image_id, tags)]. *)
Definition _store_tags (image_id : string) (tags : list string) : M unit :=
  modify (with_db (fun d =>
    {| downloads := downloads d; metadata := metadata d;
       generation_params := generation_params d;
       tag_names := tag_names d ∪ list_to_set tags;
       image_tags :=
         image_tags d ∪ list_to_set ((fun tag => (image_id, tag)) <$> tags)
    |})).

(** The row that [_log_download_db] writes, and the warnings logged
    while its columns are computed. *)
Definition make_record (url filename : string) (size : Z)
    (md : option Item.t) (status : string) (error : option string)
    (folder : option string) : DownloadRecord * list log_event :=
  let '(width, warn_w) :=
    match md with
    | Some m => parse_dimension WarnInvalidWidth (Item.width m)
    | None => (None, [])
    end in
  let '(height, warn_h) :=
    match md with
    | Some m => parse_dimension WarnInvalidHeight (Item.height m)
    | None => (None, [])
    end in
  let '(level, warn_l) :=
    match md with
    | Some m =>
        match py_or (Item.nsfwLevel m) (Item.nsfw m) with
        | PNone => (None, [])
        | nsfw_raw =>
            let '(l, warnings) := _convert_nsfw_to_level nsfw_raw in
            (Some l, warnings)
        end
    | None => (None, [])
    end in
  let reactions :=
    match md with
    | Some m =>
        match Item.stats m with
        | Some s =>
            Stats.likeCount s + Stats.heartCount s + Stats.commentCount s
        | None => 0
        end
    | None => 0
    end in
  ({| rec_url := url; rec_filename := filename;
      file_extension := Path.lstrip_dots (Path.suffix filename);
      file_size := size; rec_width := width; rec_height := height;
      nsfw_level := level; status := status; error_message := error;
      folder_path := folder; tags_fetched := false;
      reaction_total := reactions |},
   warn_w ++ warn_h ++ warn_l).


(** Whether sqlite3 takes the integers of a row of [downloads]: the
    size, the width, the height, the level and the reaction total. *)
Definition storable (r : DownloadRecord) : bool :=
  int64 (file_size r)
  && int64_or_null (rec_width r)
  && int64_or_null (rec_height r)
  && int64_or_null (nsfw_level r)
  && int64 (reaction_total r).

(** [_log_download_db(image_id, url, filename, file_size, metadata,
    status, error, folder_path)].  The first [execute] raises when an
    integer of the row does not fit, and nothing is written then; the
    stores that follow the commit can raise as well, with the row in
    place. *)
Definition _log_download_db (image_id : pyval) (url filename : string)
    (size : Z) (md : option Item.t) (status : string)
    (error : option string) (folder : option string) : M unit :=
  let key := py_str image_id in
  let '(row, warnings) :=
    make_record url filename size md status error folder in
  log_all warnings ;;
  (if storable row then
     modify (with_db (fun d =>
       {| downloads := <[key := row]> (downloads d);
          metadata :=
            match md with
            | Some m =>
                if String.eqb status "success" then <[key := m]> (metadata d)
                else metadata d
            | None => metadata d
            end;
          generation_params := generation_params d;
          tag_names := tag_names d; image_tags := image_tags d |}))
   else raise overflow_error) ;;
  match md with
  | Some m =>
      if String.eqb status "success" then
        match Item.meta m with
        | Some meta => _store_generation_params key meta
        | None => log_all [WarnNoMetaField image_id]
        end ;;
        match Item.tags m with
        | [] => ret tt
        | tags => _store_tags key tags
        end
      else ret tt
  | None => ret tt
  end.

(** [_log_download(image_id)]: the text log used without the database. *)
Definition _log_download (image_id : pyval) : M unit :=
  modify (with_text_log (fun ids => ids ∪ {[py_str image_id]})
                        (fun lines => lines ++ [py_str image_id])).

End Ledger.

(* ===================================================================== *)
(** ** Fetch-and-persist worker *)
(* ===================================================================== *)

Module Worker.
Import Rating Ledger Sniffer.

Section Methods.
Variable self : Scraper.

(** The file that receives the payload while it arrives. *)
Definition temp_path (filename : string) : string :=
  Path.join (output_dir self) ("temp_" +:+ filename).

(** The duplicate check that opens [download_image]: the status of the
    skip, if the identifier is given and already recorded. *)
Definition already_recorded (image_id : pyval) (w : World)
  : option string :=
  if truthy image_id then
    if use_database self then
      if is_downloaded image_id (db w) then Some "skipped (in database)"
      else None
    else
      if bool_decide (py_str image_id ∈ downloaded_ids w)
      then Some "skipped (in log)"
      else None
  else None.

(** [session.get(url, stream=True)], [raise_for_status()] and the loop
    over [iter_content] that writes the temporary file; the result is
    [first_chunk]. *)
Definition fetch_to_temp (url temp_filepath : string)
  : M (option bytes) :=
  fun w =>
    let w1 := with_requests (fun r => r ++ [url]) w in
    match session self (length (requests w)) url with
    | ConnectionError e => (Raise e, w1)
    | Body chunks broken =>
        let w2 := with_files (<[temp_filepath := concat chunks]>) w1 in
        match broken with
        | Some e => (Raise e, w2)
        | None => (Ok (head chunks), w2)
        end
    end.

(** Where the file and its metadata go: (filepath, meta_path,
    folder_path), with the warnings of the rating normalisation. *)
Definition placement (md : option Item.t) (is_video : bool)
    (base_name correct_filename : string)
  : (string * string * option string) * list log_event :=
  if organize_by_nsfw self then
    let nsfw_raw :=
      match md with
      | Some m => py_or (Item.nsfwLevel m) (Item.nsfw m)
      | None => PNone
      end in
    let '(nsfw_folder, warnings) := _get_nsfw_folder nsfw_raw in
    let filepath :=
      if is_video
      then Path.join (Path.join (videos_dir self) nsfw_folder)
             correct_filename
      else Path.join (Path.join (output_dir self) nsfw_folder)
             correct_filename in
    let meta_dir :=
      Path.join (Path.join (output_dir self) nsfw_folder) "metadata" in
    let meta_path := Path.join meta_dir (base_name +:+ ".json") in
    let folder_path :=
      Path.relative_to (output_dir self) (Path.parent filepath) in
    ((filepath, meta_path, Some folder_path), warnings)
  else
    let filepath :=
      if is_video then Path.join (videos_dir self) correct_filename
      else Path.join (output_dir self) correct_filename in
    let meta_path := Path.join (metadata_dir self) (base_name +:+ ".json") in
    ((filepath, meta_path, None), []).

(** The branch taken when [filepath] is already there. *)
Definition skip_existing (url filepath temp_filepath : string)
    (md : option Item.t) (image_id : pyval) (folder_path : option string)
  : M (bool * string) :=
  Fs.remove temp_filepath ;;
  (if truthy image_id then
     if use_database self then
       recorded <- _is_downloaded_db image_id ;;
       if recorded then ret tt
       else
         size <- Fs.st_size filepath ;;
         _log_download_db image_id url filepath size md "success" None
           folder_path
     else
       ids <- get downloaded_ids ;;
       if bool_decide (py_str image_id ∈ ids) then ret tt
       else _log_download image_id
   else ret tt) ;;
  incr_skipped ;;
  ret (true, "skipped (exists)").

(** The branch that puts a new file in place. *)
Definition store_new (url filepath meta_path temp_filepath : string)
    (md : option Item.t) (image_id : pyval) (folder_path : option string)
  : M (bool * string) :=
  Fs.rename temp_filepath filepath ;;
  match md with
  | Some m => Fs.write meta_path (json_dump self m)
  | None => ret tt
  end ;;
  size <- Fs.st_size filepath ;;
  (if truthy image_id then
     if use_database self then
       _log_download_db image_id url filepath size md "success" None
         folder_path
     else _log_download image_id
   else ret tt) ;;
  incr_downloaded ;;
  add_download size ;;
  ret (true, "downloaded").

(** The body of the [try] block of [download_image].  The exceptions it
    can raise here are those of the request, of the stream and of the
    ledger (an integer that sqlite3 cannot store); the file system does
    not fail. *)
Definition fetch_and_store (url filename : string) (md : option Item.t)
    (image_id : pyval) (temp_filepath : string) : M (bool * string) :=
  first_chunk <- fetch_to_temp url temp_filepath ;;
  match first_chunk with
  | Some (b :: chunk) =>
      let '(actual_extension, is_video) :=
        _detect_image_format (b :: chunk) in
      let ext_without_dot := Path.lstrip_dots actual_extension in
      let filtered :=
        match allowed_types self with
        | Some allowed => negb (bool_decide (ext_without_dot ∈ allowed))
        | None => false
        end in
      if filtered then
        Fs.remove temp_filepath ;;
        incr_filtered_type ;;
        ret (true, "skipped (type: " +:+ ext_without_dot +:+ ")")
      else
        let base_name := fst (Path.splitext filename) in
        let correct_filename := base_name +:+ actual_extension in
        let '((filepath, meta_path, folder_path), warnings) :=
          placement md is_video base_name correct_filename in
        log_all warnings ;;
        present <- Fs.exists_ filepath ;;
        if present then
          skip_existing url filepath temp_filepath md image_id folder_path
        else
          store_new url filepath meta_path temp_filepath md image_id
            folder_path
  | _ =>
      Fs.remove temp_filepath ;;
      incr_failed ;;
      ret (false, "error: empty file")
  end.

(** The [except Exception as e] block of [download_image]. *)
Definition on_exception (temp_filepath : string) (e : string)
  : M (bool * string) :=
  present <- Fs.exists_ temp_filepath ;;
  (if present then Fs.remove temp_filepath else ret tt) ;;
  incr_failed ;;
  ret (false, "error: " +:+ e).

(** [download_image(url, filename, metadata, image_id)]. *)
Definition download_image (url filename : string) (md : option Item.t)
    (image_id : pyval) : M (bool * string) :=
  recorded <- get (already_recorded image_id) ;;
  match recorded with
  | Some skipped =>
      incr_skipped ;;
      ret (true, skipped)
  | None =>
      if dry_run self then
        log_all [InfoDryRun url filename] ;;
        match md with
        | Some m =>
            log_all [InfoDryRunSize (Item.width m) (Item.height m)
                       (Item.nsfwLevel m)]
        | None => ret tt
        end ;;
        incr_downloaded ;;
        ret (true, "simulated")
      else
        let temp_filepath := temp_path filename in
        try_except (fetch_and_store url filename md image_id temp_filepath)
                   (on_exception temp_filepath)
  end.

(** The return paths of [download_image]: what is returned, and what the
    path does to the counters. *)
Inductive return_path (c : Counters) : bool * string -> Counters -> Prop :=
| path_in_database :
    return_path c (true, "skipped (in database)") (bump_skipped c)
| path_in_log :
    return_path c (true, "skipped (in log)") (bump_skipped c)
| path_simulated :
    return_path c (true, "simulated") (bump_downloaded c)
| path_type_filter ext :
    return_path c (true, "skipped (type: " +:+ ext +:+ ")")
      (bump_filtered_type c)
| path_exists :
    return_path c (true, "skipped (exists)") (bump_skipped c)
| path_downloaded :
    return_path c (true, "downloaded") (bump_downloaded c)
| path_empty_file :
    return_path c (false, "error: empty file") (bump_failed c)
| path_exception e :
    return_path c (false, "error: " +:+ e) (bump_failed c).

End Methods.
End Worker.

(* ===================================================================== *)
(** ** Sample objects *)
(* ===================================================================== *)

Module Samples.

(** A fresh run: empty ledger, empty directory, counters at zero. *)
Definition empty_db : Db :=
  {| downloads := ∅; metadata := ∅; generation_params := ∅;
     tag_names := ∅; image_tags := ∅ |}.

Definition fresh : World :=
  {| db := empty_db; downloaded_ids := ∅; download_log := [];
     files := ∅; requests := []; sleeps := []; log := [];
     counters := {| downloaded_count := 0; skipped_count := 0;
                    failed_count := 0; filtered_type_count := 0 |};
     stats := {| total_downloaded := 0; total_bytes := 0 |} |}.

(** A ledger row of a finished download. *)
Definition done_row (filename : string) : DownloadRecord :=
  {| rec_url := "https://image.example/1.png"; rec_filename := filename;
     file_extension := "png"; file_size := 8; rec_width := None;
     rec_height := None; nsfw_level := None; status := "success";
     error_message := None; folder_path := None; tags_fetched := false;
     reaction_total := 0 |}.

(** A world whose ledger holds one finished download under [key]. *)
Definition recorded (key : string) : World :=
  with_db (fun d =>
    {| downloads := <[key := done_row ("civitai_" +:+ key +:+ ".png")]>
                      (downloads d);
       metadata := metadata d; generation_params := generation_params d;
       tag_names := tag_names d; image_tags := image_tags d |}) fresh.

(** A world with one file on disk. *)
Definition on_disk (path : string) (content : bytes) : World :=
  with_files (<[path := content]>) fresh.

Definition jpeg_payload : bytes := Sniffer.jpeg_sig ++ [xe0; x00; x10].
Definition png_payload : bytes := Sniffer.png_sig.

(** A scraper in database mode, flat layout, whose session answers every
    request with [answer]. *)
Definition scraper (allowed : option (list string)) (dry : bool)
    (answer : nat -> string -> response) : Scraper :=
  {| output_dir := "downloads"; allowed_types := allowed;
     use_database := true; dry_run := dry; organize_by_nsfw := false;
     enable_retry := true; max_retries := 3; session := answer;
     json_dump := fun _ => [] |}.

Definition serves (payload : bytes) : nat -> string -> response :=
  fun _ _ => Body [payload] None.


Definition sample_item (id : pyval) : Item.t :=
  Item.mk id (PStr "https://image.example/1.png") (PInt 4000) (PInt 1000)
    PNone PNone PNone PNone PNone PNone None None [].

End Samples.


(* ===================================================================== *)
(** ** Retry wrapper and batch dispatcher *)
(* ===================================================================== *)

Module Dispatcher.
Import Worker.

(** [time.sleep(wait_time)]. *)
Definition sleep (wait_time : Z) : M unit :=
  modify (with_sleeps (fun s => s ++ [wait_time])).

(** [range(1, n + 1)]. *)
Definition range_from_1 (n : Z) : list Z :=
  Z.of_nat <$> seq 1 (Z.to_nat n).

(** One task of a batch: (url, filename, metadata, image_id). *)
Record task : Type := {
  task_url : string;
  task_filename : string;
  task_metadata : option Item.t;
  task_image_id : pyval
}.

Section Methods.
Variable self : Scraper.

Section Retry.
Variables (url filename : string) (md : option Item.t) (image_id : pyval).
Variables (max_retries backoff_factor : Z).

(** The text of the final [return] of [_download_with_retry]. *)
Definition failed_after (last_error : pyval) : string :=
  "failed after " +:+ py_str (PInt max_retries) +:+ " retries: "
  +:+ py_str last_error.

(** The [if attempt < max_retries:] block: warn, then sleep. *)
Definition back_off (attempt : Z) (warning : Z -> log_event) : M unit :=
  if attempt <? max_retries then
    let wait_time := backoff_factor ^ (attempt - 1) in
    log_all [warning wait_time] ;;
    sleep wait_time
  else ret tt.

(** The body of the [for] loop: the value to return, if the loop ends
    here, and [last_error].  The handler is the [except Exception] branch
    of the loop, for an exception that escapes [download_image]. *)
Definition attempt_once (attempt : Z) (last_error : pyval)
  : M (option (bool * string) * pyval) :=
  try_except
    (outcome <- download_image self url filename md image_id ;;
     let '(success, status) := outcome in
     if success || String.prefix "skipped" status then
       ret (Some (success, status), last_error)
     else
       back_off attempt
         (fun wait => WarnDownloadFailed attempt max_retries filename wait
                        status) ;;
       ret (None, PStr status))
    (fun e =>
       back_off attempt
         (fun wait => WarnException attempt max_retries filename wait) ;;
       ret (None, PStr e)).

(** The [for attempt in ...] loop and what follows it. *)
Fixpoint retry_loop (attempts : list Z) (last_error : pyval)
  : M (bool * string) :=
  match attempts with
  | [] =>
      log_all [ErrorFailedAfter max_retries filename last_error] ;;
      ret (false, failed_after last_error)
  | attempt :: rest =>
      step <- attempt_once attempt last_error ;;
      match step with
      | (Some outcome, _) => ret outcome
      | (None, last_error') => retry_loop rest last_error'
      end
  end.

(** [_download_with_retry(url, filename, metadata, image_id, max_retries,
    backoff_factor)]; the factor is an integer here (the code passes the
    default 2.0). *)
Definition _download_with_retry : M (bool * string) :=
  retry_loop (range_from_1 max_retries) PNone.

(** An outcome that ends the loop at once: a success or any skip. *)
Definition settles (outcome : bool * string) : bool :=
  fst outcome || String.prefix "skipped" (snd outcome).

(** The world after the warning and the sleep that follow the failed
    attempt number [attempt]. *)
Definition paused (attempt : Z) (status : string) (w : World) : World :=
  snd (back_off attempt
         (fun wait => WarnDownloadFailed attempt max_retries filename wait
                        status) w).

(** [attempts_made a w outcomes w']: starting in [w] with attempt number
    [a], the single-attempt download is called once per element of
    [outcomes], which lists what the calls return in order, with the
    back-off pause between one call and the next; [w'] is the world after
    the last call. *)
Inductive attempts_made : Z -> World -> list (bool * string) -> World -> Prop :=
| attempts_none a w : attempts_made a w [] w
| attempts_last a w outcome w1 :
    download_image self url filename md image_id w = (Ok outcome, w1) ->
    attempts_made a w [outcome] w1
| attempts_more a w success status w1 next rest w2 :
    download_image self url filename md image_id w
    = (Ok (success, status), w1) ->
    attempts_made (a + 1) (paused a status w1) (next :: rest) w2 ->
    attempts_made a w ((success, status) :: next :: rest) w2.


End Retry.

(** The loop of [_download_batch] that builds [download_tasks]. *)
Definition build_tasks (items : list Item.t) (save_metadata : bool)
  : list task :=
  omap (fun item =>
          let image_id := Item.id item in
          let image_url := Item.url item in
          if truthy image_url then
            Some {| task_url := py_str image_url;
                    task_filename := "civitai_" +:+ py_str image_id +:+ ".tmp";
                    task_metadata :=
                      if save_metadata then Some item else None;
                    task_image_id := image_id |}
          else None)
       items.

(** What the pool runs for one task. *)
Definition run_task (t : task) : M (bool * string) :=
  if enable_retry self then
    _download_with_retry (task_url t) (task_filename t) (task_metadata t)
      (task_image_id t) (max_retries self) 2
  else
    download_image self (task_url t) (task_filename t) (task_metadata t)
      (task_image_id t).

(** The body of the [as_completed] loop for one finished task: the
    number to add to [successful].  [progress_bar] tells whether a bar is
    shown. *)
Definition collect (progress_bar : bool) (t : task) : M Z :=
  try_except
    (outcome <- run_task t ;;
     let '(success, status) := outcome in
     if progress_bar then ret 0
     else if success then
       if String.eqb status "downloaded" then
         log_all [InfoDownloaded (task_filename t)] ;; ret 1
       else if String.prefix "skipped" status then
         log_all [InfoSkipped (task_filename t)] ;; ret 0
       else ret 0
     else
       log_all [ErrorFailed (task_filename t) status] ;; ret 0)
    (fun e => incr_failed ;; ret 0).

(** The tasks of a batch, run to completion one after another in the
    order [schedule].  The interleaving of the pool's threads,
    [check_pause] and the [running] flag are outside the embedding. *)
Fixpoint run_batch (progress_bar : bool) (schedule : list task) : M Z :=
  match schedule with
  | [] => ret 0
  | t :: rest =>
      n <- collect progress_bar t ;;
      m <- run_batch progress_bar rest ;;
      ret (n + m)
  end.

(** [_download_batch(items, save_metadata, progress_bar)], with the
    workers taking the tasks in page order. *)
Definition _download_batch (items : list Item.t) (save_metadata : bool)
    (progress_bar : bool) : M Z :=
  run_batch progress_bar (build_tasks items save_metadata).

End Methods.
End Dispatcher.

(* ===================================================================== *)
(** ** Sample runs *)
(* ===================================================================== *)

Module Runs.
Import Samples Dispatcher.


(** A scraper whose session always serves the PNG. *)
Definition steady : Scraper := scraper None false (serves png_payload).

Definition two_items : list Item.t :=
  [sample_item (PInt 7); sample_item (PInt 8)].

(** The world after a first, fully successful run over [two_items]. *)
Definition after_first_run : World :=
  snd (_download_batch steady two_items true false fresh).

End Runs.


(* ===================================================================== *)
(** ** More sample objects *)
(* ===================================================================== *)

Module Fixtures.
Import Samples.

(** A scraper as [scraper], with the retry wrapper switched off. *)
Definition plain (answer : nat -> string -> response) : Scraper :=
  {| output_dir := "downloads"; allowed_types := None;
     use_database := true; dry_run := false; organize_by_nsfw := false;
     enable_retry := false; max_retries := 3; session := answer;
     json_dump := fun _ => [] |}.

(** A session whose streams end before the first chunk. *)
Definition silent : nat -> string -> response := fun _ _ => Body [] None.

(** An item whose width is one more than sqlite3 can store. *)
Definition wide_item (id : pyval) : Item.t :=
  Item.mk id (PStr "https://image.example/1.png") (PInt (2 ^ 63))
    (PInt 1000) PNone PNone PNone PNone PNone PNone None None [].

(** An item with reaction counts. *)
Definition liked (id : pyval) (likes hearts : Z) : Item.t :=
  Item.mk id (PStr "https://image.example/1.png") (PInt 4000) (PInt 1000)
    PNone PNone PNone PNone PNone PNone
    (Some (Stats.mk likes hearts 0 0 0)) None [].

End Fixtures.

(* ===================================================================== *)
(** ** The page loop of [scrape] *)
(* ===================================================================== *)

(** The dict built by [build_query_params]: three keys are always there,
    the other five only for a truthy argument. *)
Module Params.
Record t : Type := mk {
  limit : Z;
  sort : string;
  period : string;
  nsfw : option pyval;
  username : option pyval;
  modelId : option pyval;
  postId : option pyval;
  cursor : option pyval
}.
End Params.

Module Pagination.
Import Filters Dispatcher.

(** [if v: params[key] = v]. *)
Definition optional (v : pyval) : option pyval :=
  if truthy v then Some v else None.

Definition build_query_params (limit : Z) (sort period : string)
    (nsfw username modelId postId cursor : pyval) : Params.t :=
  {| Params.limit := Z.min limit 200;
     Params.sort := sort;
     Params.period := period;
     Params.nsfw := optional nsfw;
     Params.username := optional username;
     Params.modelId := optional modelId;
     Params.postId := optional postId;
     Params.cursor := optional cursor |}.

(** The JSON body of an API answer, as far as [scrape] reads it:
    [items] is [None] when the key is missing, [nextCursor] is
    [data.get('metadata', {}).get('nextCursor')]. *)
Record PageData : Type := {
  items : option (list Item.t);
  nextCursor : pyval
}.

(** What [self.session.get(self.base_url, ...)] does: it raises a
    [RequestException], or it answers with an optional
    [X-RateLimit-Remaining] header, a status ([http_error] is what
    [raise_for_status] raises, if it does) and a body; a body of [None]
    is one that is falsy ([null], an empty object). *)
Inductive api_response : Type :=
| ApiError (e : string)
| ApiAnswer (rate_limit_remaining : option string)
            (http_error : option string) (json : option PageData).

(** The two records [fetch_images] writes to the logger. *)
Inductive api_event : Type :=
| WarningRateLimitLow (remaining : string)
| ErrorFetchingImages (e : string).

(** The local state of the loop of [scrape]: [cursor] and [page], with
    the queries sent to the API so far (kept apart from the download
    requests of the world), what [fetch_images] logged and the number of
    [time.sleep(delay)] calls made between pages. *)
Record Pager : Type := {
  cursor : pyval;
  page : Z;
  asked : list Params.t;
  api_log : list api_event;
  delays : nat
}.

Definition with_asked (f : list Params.t -> list Params.t) (p : Pager)
  : Pager :=
  {| cursor := cursor p; page := page p; asked := f (asked p);
     api_log := api_log p; delays := delays p |}.

Definition with_api_log (f : list api_event -> list api_event) (p : Pager)
  : Pager :=
  {| cursor := cursor p; page := page p; asked := asked p;
     api_log := f (api_log p); delays := delays p |}.

Definition with_cursor (c : pyval) (p : Pager) : Pager :=
  {| cursor := c; page := page p; asked := asked p;
     api_log := api_log p; delays := delays p |}.

Definition next_page (p : Pager) : Pager :=
  {| cursor := cursor p; page := page p + 1; asked := asked p;
     api_log := api_log p; delays := delays p |}.

Definition delayed (p : Pager) : Pager :=
  {| cursor := cursor p; page := page p; asked := asked p;
     api_log := api_log p; delays := S (delays p) |}.

(** The state in which [scrape] enters its loop. *)
Definition start : Pager :=
  {| cursor := PNone; page := 1; asked := []; api_log := []; delays := 0 |}.

(** The arguments of a call of [scrape].  [delay] only sets the length
    of the sleeps counted in [delays]; [progress_bar] is the truth value
    of the bar set up before the loop. *)
Record ScrapeArgs : Type := {
  max_images : option Z;
  sort : string;
  period : string;
  nsfw : pyval;
  username : pyval;
  modelId : pyval;
  save_metadata : bool;
  endless : bool;
  nsfw_only : bool;
  min_resolution : option Z;
  min_reactions : option Z;
  progress_bar : bool
}.

(** How an iteration of [while self.running:] ends. *)
Inductive flow : Type := Break | Continue.

(** How a run of the loop ends within a number of iterations. *)
Inductive ending : Type :=
| Finished
| Crashed (e : string)
| StillRunning.

Section Methods.
Variable self : Scraper.
(** The answer of the API to the n-th query of the run. *)
Variable api : nat -> Params.t -> api_response.

(** The header check of [fetch_images]: the records to log, or the
    [ValueError] of [int(remaining)], which the [except] clause does not
    catch. *)
Definition rate_limit_check (remaining : option string)
  : result (list api_event) :=
  match remaining with
  | Some r =>
      match int_of_str r with
      | Some k => Ok (if k <? 10 then [WarningRateLimitLow r] else [])
      | None => Raise "ValueError"
      end
  | None => Ok []
  end.

(** [fetch_images(params)]: [Ok None] is the [None] of the [except]
    clause or a falsy body. *)
Definition fetch_images (params : Params.t) (p : Pager)
  : result (option PageData) * Pager :=
  let p1 := with_asked (fun l => l ++ [params]) p in
  match api (length (asked p)) params with
  | ApiError e =>
      (Ok None, with_api_log (fun l => l ++ [ErrorFetchingImages e]) p1)
  | ApiAnswer remaining http_error json =>
      match rate_limit_check remaining with
      | Raise e => (Raise e, p1)
      | Ok warnings =>
          let p2 := with_api_log (fun l => l ++ warnings) p1 in
          match http_error with
          | Some e =>
              (Ok None,
               with_api_log (fun l => l ++ [ErrorFetchingImages e]) p2)
          | None => (Ok json, p2)
          end
      end
  end.

Section Loop.
Variable args : ScrapeArgs.

(** [not endless and max_images and self.downloaded_count >= max_images]. *)
Definition target_reached (w : World) : bool :=
  negb (endless args) &&
  match max_images args with
  | Some m => negb (m =? 0) && (m <=? downloaded_count (counters w))
  | None => false
  end.

(** The [limit] of the page to ask for; without a target and out of
    endless mode the subtraction raises a [TypeError]. *)
Definition page_limit (w : World) : result Z :=
  if endless args then Ok 200
  else match max_images args with
       | Some m => Ok (Z.min (m - downloaded_count (counters w)) 200)
       | None => Raise "TypeError"
       end.

(** One iteration of the loop of [scrape], with [self.running] true and
    no pause: the informational records and prints are left out. *)
Definition scrape_step (p : Pager) (w : World)
  : result flow * (Pager * World) :=
  if target_reached w then (Ok Break, (p, w))
  else
    match page_limit w with
    | Raise e => (Raise e, (p, w))
    | Ok limit =>
        let params :=
          build_query_params limit (sort args) (period args) (nsfw args)
            (username args) (modelId args) PNone (cursor p) in
        match fetch_images params p with
        | (Raise e, p1) => (Raise e, (p1, w))
        | (Ok None, p1) => (Ok Break, (p1, w))
        | (Ok (Some data), p1) =>
            match items data with
            | None => (Ok Break, (p1, w))
            | Some [] => (Ok Break, (p1, w))
            | Some page_items =>
                match filter_page (nsfw_only args) (min_resolution args)
                        (min_reactions args) page_items with
                | [] => (Ok Continue, (next_page p1, w))
                | kept =>
                    match _download_batch self kept (save_metadata args)
                            (progress_bar args) w with
                    | (Raise e, w') => (Raise e, (p1, w'))
                    | (Ok _, w') =>
                        let p2 := with_cursor (nextCursor data) p1 in
                        if truthy (nextCursor data) then
                          (Ok Continue, (delayed (next_page p2), w'))
                        else (Ok Break, (p2, w'))
                    end
                end
            end
        end
    end.

(** The ways an iteration can end. *)
Inductive step_shape (p : Pager) (w : World)
  : result flow * (Pager * World) -> Prop :=
| shape_target :
    target_reached w = true ->
    step_shape p w (Ok Break, (p, w))
| shape_no_limit e :
    target_reached w = false ->
    page_limit w = Raise e ->
    step_shape p w (Raise e, (p, w))
| shape_fetch_raises limit q e p1 :
    target_reached w = false ->
    page_limit w = Ok limit ->
    q = build_query_params limit (sort args) (period args) (nsfw args)
          (username args) (modelId args) PNone (cursor p) ->
    fetch_images q p = (Raise e, p1) ->
    step_shape p w (Raise e, (p1, w))
| shape_no_items limit q data p1 :
    target_reached w = false ->
    page_limit w = Ok limit ->
    q = build_query_params limit (sort args) (period args) (nsfw args)
          (username args) (modelId args) PNone (cursor p) ->
    fetch_images q p = (Ok data, p1) ->
    (data = None \/
     exists d, data = Some d /\ (items d = None \/ items d = Some [])) ->
    step_shape p w (Ok Break, (p1, w))
| shape_filtered limit q d page_items p1 :
    target_reached w = false ->
    page_limit w = Ok limit ->
    q = build_query_params limit (sort args) (period args) (nsfw args)
          (username args) (modelId args) PNone (cursor p) ->
    fetch_images q p = (Ok (Some d), p1) ->
    items d = Some page_items ->
    page_items <> [] ->
    filter_page (nsfw_only args) (min_resolution args) (min_reactions args)
      page_items = [] ->
    step_shape p w (Ok Continue, (next_page p1, w))
| shape_batch limit q d page_items p1 n w' :
    target_reached w = false ->
    page_limit w = Ok limit ->
    q = build_query_params limit (sort args) (period args) (nsfw args)
          (username args) (modelId args) PNone (cursor p) ->
    fetch_images q p = (Ok (Some d), p1) ->
    items d = Some page_items ->
    filter_page (nsfw_only args) (min_resolution args) (min_reactions args)
      page_items <> [] ->
    _download_batch self
      (filter_page (nsfw_only args) (min_resolution args)
         (min_reactions args) page_items)
      (save_metadata args) (progress_bar args) w = (Ok n, w') ->
    step_shape p w
      (if truthy (nextCursor d)
       then (Ok Continue,
             (delayed (next_page (with_cursor (nextCursor d) p1)), w'))
       else (Ok Break, (with_cursor (nextCursor d) p1, w'))).

(** At most [fuel] iterations of the loop. *)
Fixpoint scrape_loop (fuel : nat) (p : Pager) (w : World)
  : ending * (Pager * World) :=
  match fuel with
  | O => (StillRunning, (p, w))
  | S fuel' =>
      match scrape_step p w with
      | (Ok Break, s) => (Finished, s)
      | (Ok Continue, (p', w')) => scrape_loop fuel' p' w'
      | (Raise e, s) => (Crashed e, s)
      end
  end.

(** [scrape(...)]: the loop entered with [cursor = None] and
    [page = 1]. *)
Definition scrape (fuel : nat) (w : World) : ending * (Pager * World) :=
  scrape_loop fuel start w.

End Loop.
End Methods.

(** *** Sample feeds *)

(** An API that answers every query with the same page. *)
Definition same_page (page_items : list Item.t) (next : pyval)
  : nat -> Params.t -> api_response :=
  fun _ _ =>
    ApiAnswer None None
      (Some {| items := Some page_items; nextCursor := next |}).

(** An API that cuts its page to the [limit] asked for. *)
Definition honest (page_items : list Item.t) (next : pyval)
  : nat -> Params.t -> api_response :=
  fun _ q =>
    ApiAnswer None None
      (Some {| items := Some (take (Z.to_nat (Params.limit q)) page_items);
               nextCursor := next |}).

(** An API that sends a rate-limit header with every page. *)
Definition limited (remaining : string) (page_items : list Item.t)
    (next : pyval) : nat -> Params.t -> api_response :=
  fun _ _ =>
    ApiAnswer (Some remaining) None
      (Some {| items := Some page_items; nextCursor := next |}).

(** An API that cannot be reached. *)
Definition unreachable : nat -> Params.t -> api_response :=
  fun _ _ => ApiError "Connection refused".

(** The defaults of [scrape], with a target and the filters to choose. *)
Definition call (target : option Z) (forever adult : bool)
    (resolution : option Z) : ScrapeArgs :=
  {| max_images := target; sort := "Most Reactions"; period := "AllTime";
     nsfw := PNone; username := PNone; modelId := PNone;
     save_metadata := true; endless := forever; nsfw_only := adult;
     min_resolution := resolution; min_reactions := None;
     progress_bar := false |}.

End Pagination.

(* ===================================================================== *)
(** ** Reading the text log back *)
(* ===================================================================== *)

Module TextLog.

(** The content of [download_log.txt]: every line written by
    [_log_download], each followed by its line feed. *)
Definition file_text (lines : list string) : list ascii :=
  concat ((fun s => list_ascii_of_string s ++ ["010"%char]) <$> lines).

Definition is_newline (c : ascii) : bool :=
  Ascii.eqb c "010" || Ascii.eqb c "013".

(** The lines that iterating over the file yields, without their
    terminators.  A carriage return ends a line as a line feed does, so a
    pair of them shows as one empty line more, and the text after the
    last terminator as a last line; the loader drops empty lines. *)
Fixpoint read_lines (s : list ascii) : list (list ascii) :=
  match s with
  | [] => [[]]
  | c :: s' =>
      if is_newline c then [] :: read_lines s'
      else match read_lines s' with
           | l :: ls => (c :: l) :: ls
           | [] => [[c]]
           end
  end.

Definition non_empty (l : list ascii) : bool :=
  match l with [] => false | _ => true end.

(** [_load_download_log()]: a missing file and an empty one both give the
    empty set. *)
Definition _load_download_log (w : World) : gset string :=
  list_to_set
    (string_of_list_ascii <$>
       List.filter non_empty (strip <$> read_lines (file_text (download_log w)))).

(** Printable ASCII other than the space. *)
Definition printable (c : ascii) : bool :=
  let n := nat_of_ascii c in ((33 <=? n) && (n <=? 126))%nat.

(** A text that a line of the log holds as it is: not empty and made of
    printable characters. *)
Definition clean (s : string) : bool :=
  non_empty (list_ascii_of_string s)
  && forallb printable (list_ascii_of_string s).

End TextLog.
(* ===================================================================== *)
(** * Properties *)
(* ===================================================================== *)

Section BytesFacts.
Import Bytes.



End BytesFacts.

(* ===================================================================== *)
(** ** Content sniffer: the rule list *)
(* ===================================================================== *)

Section SnifferFacts.
Import Bytes Sniffer.






(** The PNG signature itself is classified as a PNG image. *)
Lemma detect_image_format_png :
  _detect_image_format png_sig = (".png", false).
Proof. reflexivity. Qed.


End SnifferFacts.

(* ===================================================================== *)
(** ** Python values *)
(* ===================================================================== *)

Section PyFacts.








(** [int] at the edges of its literals: it skips a tab or a space around
    the digits but not the separator 0x1f, which [str.strip] would take
    off; it takes single underscores between digits; and it rejects a
    literal of more than 4300 digits. *)
Lemma int_of_str_edges :
  int_of_str (String "009"%char "6 ") = Some 6 /\
  int_of_str (String "031"%char "6") = None /\
  int_of_str (String "6"%char (String "031"%char "")) = None /\
  strip (list_ascii_of_string (String "031"%char "6"))
  = list_ascii_of_string "6" /\
  int_of_str "-6_0" = Some (-60) /\
  int_of_str "6__0" = None /\
  int_of_str (string_of_list_ascii (repeat "1"%char 4301)) = None /\
  int_of_str (string_of_list_ascii (repeat "1"%char 4300)) <> None.
Proof.
  repeat split; try (vm_compute; reflexivity).
  vm_compute. discriminate.
Qed.

End PyFacts.

(* ===================================================================== *)
(** ** Content-rating normalisation *)
(* ===================================================================== *)

Section RatingFacts.
Import Rating.








End RatingFacts.

(* ===================================================================== *)
(** ** Page filters *)
(* ===================================================================== *)

Section FilterFacts.
Import Rating Filters.

Lemma py_in_5_6 v :
  py_in v [PInt 5; PInt 6] = true <-> v = PInt 5 \/ v = PInt 6.
Proof.
  destruct v as [| [] | z | s]; simpl; split;
    try discriminate; try (intros [H | H]; discriminate);
    rewrite ?orb_false_r.
  - rewrite orb_true_iff, !Z.eqb_eq. intros [-> | ->]; auto.
  - intros [[= ->] | [= ->]]; reflexivity.
Qed.

Lemma py_in_X_XXX v :
  py_in v [PStr "X"; PStr "XXX"] = true <-> v = PStr "X" \/ v = PStr "XXX".
Proof.
  destruct v as [| [] | z | s]; simpl; split;
    try discriminate; try (intros [H | H]; discriminate);
    rewrite ?orb_false_r.
  - rewrite orb_true_iff, !String.eqb_eq. intros [-> | ->]; auto.
  - intros [[= ->] | [= ->]]; reflexivity.
Qed.

(** C7, counterexample: an item labelled X in its [nsfwLevel] field has
    normalised level 5, and the rating-only filter drops it. *)
Lemma nsfw_only_drops_level_5 :
  normalized_level (item_of PNone PNone (PBool true) (PStr "X")) = Some 5 /\
  filter_nsfw_only true [item_of PNone PNone (PBool true) (PStr "X")] = [].
Proof. split; reflexivity. Qed.

(** The filter also keeps items whose normalised level is not 5 or 6. *)
Lemma nsfw_only_keeps_level_1 :
  normalized_level (item_of PNone PNone (PStr "X") (PInt 1)) = Some 1 /\
  filter_nsfw_only true [item_of PNone PNone (PStr "X") (PInt 1)]
  = [item_of PNone PNone (PStr "X") (PInt 1)].
Proof. split; reflexivity. Qed.

(** C7, as amended.  With the rating-only filter on, the filtering step
    keeps, in page order, exactly the items whose raw [nsfwLevel] field is
    the integer 5 or 6 or whose raw [nsfw] field is the text X or XXX; the
    fields are compared as received, without normalisation.  With the
    filter off the page is left as it is. *)
Theorem filter_nsfw_only_spec (items : list Item.t) :
  (forall item,
     In item (filter_nsfw_only true items) <->
     In item items /\
     (Item.nsfwLevel item = PInt 5 \/ Item.nsfwLevel item = PInt 6 \/
      Item.nsfw item = PStr "X" \/ Item.nsfw item = PStr "XXX")) /\
  sublist (filter_nsfw_only true items) items /\
  filter_nsfw_only false items = items.
Proof.
  split; [|split; [|reflexivity]].
  - intros item. unfold filter_nsfw_only, nsfw_only_keep.
    rewrite filter_In, orb_true_iff, py_in_5_6, py_in_X_XXX. tauto.
  - unfold filter_nsfw_only. induction items as [|item items IH]; simpl.
    + constructor.
    + destruct (nsfw_only_keep item); constructor; exact IH.
Qed.


(** A width that [int] rejects because of the separator 0x1f before its
    digits: the item is dropped. *)
Lemma min_resolution_drops_separator_width :
  py_int (PStr (String "031"%char "4000")) = None /\
  filter_min_resolution (Some 2048)
    [item_of (PStr (String "031"%char "4000")) (PInt 0) PNone PNone]
  = [].
Proof. split; reflexivity. Qed.



End FilterFacts.

(* ===================================================================== *)
(** ** Paths *)
(* ===================================================================== *)

Abbreviation chars := list_ascii_of_string.

Section PathFacts.

Lemma chars_append a b : chars (a +:+ b) = chars a ++ chars b.
Proof. induction a as [|c a IH]; simpl; [reflexivity | rewrite IH; reflexivity]. Qed.

Lemma string_of_chars_app x y :
  string_of_list_ascii (x ++ y)
  = string_of_list_ascii x +:+ string_of_list_ascii y.
Proof. induction x as [|c x IH]; simpl; [reflexivity | rewrite IH; reflexivity]. Qed.

Lemma chars_join a b : chars (Path.join a b) = chars a ++ "/"%char :: chars b.
Proof. unfold Path.join. rewrite !chars_append. reflexivity. Qed.

Lemma rsplit_app p s before rest :
  Path.rsplit p s = Some (before, rest) ->
  s = before ++ rest /\ exists c rest', rest = c :: rest'.
Proof.
  revert before rest. induction s as [|c s IH]; simpl; [discriminate|].
  intros before rest. destruct (Path.rsplit p s) as [[b r]|].
  - intros [= <- <-]. destruct (IH b r eq_refl) as [-> Hr]. auto.
  - destruct (p c); [|discriminate]. intros [= <- <-]. eauto.
Qed.

(** [splitext] cuts its argument in two, and an extension is never empty
    when the root differs from the path. *)
Lemma splitext_cases p :
  Path.splitext p = (p, "") \/
  exists root c ext,
    Path.splitext p = (root, String c ext) /\ p = root +:+ String c ext.
Proof.
  unfold Path.splitext, Path.split_name.
  set (s := chars p).
  assert (Hp : p = string_of_list_ascii s)
    by (symmetry; apply string_of_list_ascii_of_string).
  assert (Hcut : forall dir name, s = dir ++ name ->
    (let '(dir, name) := (dir, name) in
     match Path.rsplit Path.is_dot name with
     | Some (stem, ext) =>
         if forallb Path.is_dot stem then (p, "")
         else (string_of_list_ascii (dir ++ stem), string_of_list_ascii ext)
     | None => (p, "")
     end) = (p, "") \/
    exists root c ext,
      (let '(dir, name) := (dir, name) in
       match Path.rsplit Path.is_dot name with
       | Some (stem, ext) =>
           if forallb Path.is_dot stem then (p, "")
           else (string_of_list_ascii (dir ++ stem), string_of_list_ascii ext)
       | None => (p, "")
       end) = (root, String c ext) /\ p = root +:+ String c ext).
  { intros dir name Hs. cbv beta iota.
    destruct (Path.rsplit Path.is_dot name) as [[stem ext]|] eqn:Hname;
      [|left; reflexivity].
    destruct (forallb Path.is_dot stem); [left; reflexivity|].
    right. apply rsplit_app in Hname as [-> (c & ext' & ->)].
    exists (string_of_list_ascii (dir ++ stem)), c,
           (string_of_list_ascii ext').
    split; [reflexivity|].
    rewrite Hp, Hs, app_assoc, string_of_chars_app. reflexivity. }
  destruct (Path.rsplit Path.is_sep s) as [[dir [|c name]]|] eqn:Hsep.
  - apply (Hcut [] s). reflexivity.
  - apply (Hcut (dir ++ [c]) name).
    apply rsplit_app in Hsep as [-> _]. rewrite <- app_assoc. reflexivity.
  - apply (Hcut [] s). reflexivity.
Qed.

(** The extensions the sniffer can return. *)
Lemma detect_extension data :
  In (fst (Sniffer._detect_image_format data))
     [".mp4"; ".webm"; ".flv"; ".png"; ".jpg"; ".webp"; ".gif"].
Proof.
  unfold Sniffer._detect_image_format.
  repeat match goal with
         | |- context [if ?b then _ else _] => destruct b
         end; simpl; tauto.
Qed.

Lemma dots_app x y : Path.dots (x ++ y) = (Path.dots x + Path.dots y)%nat.
Proof. unfold Path.dots. rewrite List.filter_app, length_app. reflexivity. Qed.

(** A name never coincides with its own temporary name. *)
Lemma temp_name_fresh filename data :
  "temp_" +:+ filename
  <> fst (Path.splitext filename) +:+ fst (Sniffer._detect_image_format data).
Proof.
  intros Heq. apply (f_equal chars) in Heq. rewrite !chars_append in Heq.
  pose proof (detect_extension data) as Hext.
  set (ext := fst (Sniffer._detect_image_format data)) in *.
  assert (Hshape : (length (chars ext) <= 5)%nat /\ Path.dots (chars ext) = 1%nat).
  { simpl in Hext.
    repeat (destruct Hext as [<- | Hext]; [split; [simpl; lia | reflexivity]|]).
    contradiction. }
  destruct Hshape as [Hlen Hdots].
  destruct (splitext_cases filename) as [Hs | (root & c & e & Hs & Hf)];
    rewrite Hs in Heq; cbn [fst] in Heq.
  - apply (f_equal Path.dots) in Heq. rewrite !dots_app, Hdots in Heq.
    change (Path.dots (chars "temp_")) with 0%nat in Heq. lia.
  - apply (f_equal (@length ascii)) in Heq.
    rewrite Hf, !chars_append, !length_app in Heq. simpl in Heq. lia.
Qed.

End PathFacts.
(* ===================================================================== *)
(** ** Fetch-and-persist worker *)
(* ===================================================================== *)

(** Unfold the monadic code of the worker down to worlds. *)
Ltac munfold :=
  cbv [Worker.download_image Worker.fetch_and_store Worker.on_exception
       Worker.store_new Worker.skip_existing Worker.fetch_to_temp
       try_except bind ret get modify raise log_all
       incr_downloaded incr_skipped incr_failed incr_filtered_type
       add_download Fs.exists_ Fs.remove Fs.write Fs.rename Fs.st_size
       Ledger._is_downloaded_db Ledger._log_download_db
       Ledger._log_download Ledger._store_generation_params
       Ledger._store_tags].

(** Case analysis on the innermost scrutinee of the goal. *)
Ltac split_match :=
  match goal with
  | |- context [Ledger.make_record ?a ?b ?c ?d ?e ?f ?g] =>
      destruct (Ledger.make_record a b c d e f g) as [? ?]
  | |- context [match ?x with _ => _ end] =>
      lazymatch x with
      | context [match _ with _ => _ end] => fail
      | _ => destruct x eqn:?
      end
  end.

(** Project the fields out of updated worlds. *)
Ltac world_simpl :=
  cbn [db downloaded_ids download_log files requests sleeps log counters
       stats with_db with_text_log with_files with_requests with_sleeps
       with_log with_counters with_stats].

Ltac split_world := first [split_match | progress world_simpl].

Section WorkerFacts.
Import Worker Ledger Samples Sniffer.
Variable self : Scraper.

(** The query of the duplicate check, in words: a row for the identifier
    exists and its status is [success] or [migrated]. *)
Lemma is_downloaded_spec image_id d :
  is_downloaded image_id d = true <->
  exists row, downloads d !! py_str image_id = Some row /\
              (status row = "success" \/ status row = "migrated").
Proof.
  unfold is_downloaded, satisfied.
  destruct (downloads d !! py_str image_id) as [row|].
  - rewrite orb_true_iff, !String.eqb_eq. split.
    + intros H. exists row. auto.
    + intros (row' & [= <-] & H). exact H.
  - split; [discriminate | intros (row & H & _); discriminate].
Qed.

(** Every call returns, along one of the return paths, without sleeping
    and after at most one request. *)
Lemma download_image_run url filename md image_id w :
  exists outcome w',
    download_image self url filename md image_id w = (Ok outcome, w') /\
    return_path (counters w) outcome (counters w') /\
    sleeps w' = sleeps w /\
    (length (requests w') <= length (requests w) + 1)%nat.
Proof.
  munfold.
  repeat split_world.
  all: eexists; eexists; (split; [reflexivity|]).
  all: (split; [|split; [reflexivity | cbn; rewrite ?length_app; simpl; lia]]).
  all: try (unfold already_recorded in *;
            repeat match goal with
                   | H : context [if ?b then _ else _] |- _ => destruct b
                   end; simplify_eq).
  all: solve [econstructor].
Qed.

(** The duplicate skip: the whole effect is one bump of [skipped]. *)
Lemma download_image_recorded url filename md image_id w :
  use_database self = true ->
  truthy image_id = true ->
  is_downloaded image_id (db w) = true ->
  download_image self url filename md image_id w
  = (Ok (true, "skipped (in database)"), with_counters bump_skipped w).
Proof.
  intros Hdb Hid Hrec. munfold. unfold already_recorded.
  rewrite Hid, Hdb, Hrec. reflexivity.
Qed.

(** A failure is never reported as a skip. *)
Lemma failure_not_skipped c outcome c' :
  return_path c outcome c' -> fst outcome = false ->
  String.prefix "skipped" (snd outcome) = false.
Proof. intros [] H; try discriminate H; reflexivity. Qed.

(** C9, counterexample: in dry-run mode the worker sends no request, so
    nothing is fetched or classified. *)
Lemma dry_run_sends_no_request :
  download_image (scraper None true (serves png_payload))
    "https://image.example/7.png" "civitai_7.tmp" None (PInt 7) fresh
  = (Ok (true, "simulated"),
     with_counters bump_downloaded
       (with_log (fun l => l ++ [InfoDryRun "https://image.example/7.png"
                                   "civitai_7.tmp"]) fresh)) /\
  requests
    (snd (download_image (scraper None true (serves png_payload))
            "https://image.example/7.png" "civitai_7.tmp" None (PInt 7)
            fresh)) = [].
Proof. split; reflexivity. Qed.

(** C9, as amended.  In dry-run mode, for an item that the duplicate
    check does not skip, [download_image] stops right after that check:
    it sends no request, classifies nothing, leaves the files and the
    ledger as they are, returns the success outcome "simulated" and
    raises the downloaded counter by exactly one. *)
Theorem dry_run_simulates url filename md image_id w :
  dry_run self = true ->
  already_recorded self image_id w = None ->
  exists w',
    download_image self url filename md image_id w
    = (Ok (true, "simulated"), w') /\
    requests w' = requests w /\
    files w' = files w /\
    db w' = db w /\
    downloaded_ids w' = downloaded_ids w /\
    stats w' = stats w /\
    counters w' = bump_downloaded (counters w).
Proof.
  intros Hdry Hrec. munfold. rewrite Hrec, Hdry.
  destruct md; eexists; (split; [reflexivity|]); repeat split.
Qed.

(** C10.  Every call of [download_image] returns, and it returns along
    one of its return paths (duplicate skip, dry-run simulation,
    type-filter skip, already-exists skip, download, empty payload, caught
    exception), each of which raises exactly one of the four counters by
    exactly one. *)
Theorem download_image_bumps_one_counter url filename md image_id w :
  exists outcome w',
    download_image self url filename md image_id w = (Ok outcome, w') /\
    return_path (counters w) outcome (counters w') /\
    one_counter_bumped (counters w) (counters w') /\
    total_processed (counters w') = total_processed (counters w) + 1.
Proof.
  destruct (download_image_run url filename md image_id w)
    as (outcome & w' & Hrun & Hpath & _).
  exists outcome, w'. split; [exact Hrun|]. split; [exact Hpath|].
  unfold one_counter_bumped, total_processed.
  destruct Hpath; simpl; split; auto; lia.
Qed.


(** The final path chosen by [placement] is never the temporary file. *)
Lemma temp_path_fresh filename md data is_video filepath meta_path folder
    warnings :
  placement self md is_video (fst (Path.splitext filename))
    (fst (Path.splitext filename) +:+ fst (_detect_image_format data))
  = ((filepath, meta_path, folder), warnings) ->
  temp_path self filename <> filepath.
Proof.
  unfold placement, temp_path, videos_dir, Rating._get_nsfw_folder.
  intros Hplace Heq.
  assert (Hflat : chars ("temp_" +:+ filename)
                  <> chars (fst (Path.splitext filename)
                            +:+ fst (_detect_image_format data))).
  { intros H. apply (temp_name_fresh filename data).
    rewrite <- (string_of_list_ascii_of_string ("temp_" +:+ filename)), H.
    apply string_of_list_ascii_of_string. }
  destruct (organize_by_nsfw self).
  - destruct (Rating._convert_nsfw_to_level _) as [level ws].
    injection Hplace as <- _ _ _.
    apply (f_equal chars) in Heq.
    destruct is_video, (level <=? 1);
      rewrite ?chars_join, <- ?app_assoc in Heq;
      apply app_inv_head in Heq; discriminate Heq.
  - injection Hplace as <- _ _ _.
    apply (f_equal chars) in Heq.
    destruct is_video;
      rewrite ?chars_join, <- ?app_assoc in Heq;
      apply app_inv_head in Heq.
    + discriminate Heq.
    + injection Heq as Heq. contradiction.
Qed.

(** C5, counterexample: with the allow-list ["png"] and a JPEG payload
    the status returned names the sniffed type; it is not the text
    "skipped (filtered by type)". *)
Lemma type_filter_status_names_type :
  fst (download_image (scraper (Some ["png"]) false (serves jpeg_payload))
         "https://image.example/7.jpeg" "civitai_7.tmp" None (PInt 7) fresh)
  = Ok (true, "skipped (type: jpg)") /\
  fst (download_image (scraper (Some ["png"]) false (serves jpeg_payload))
         "https://image.example/7.jpeg" "civitai_7.tmp" None (PInt 7) fresh)
  <> Ok (true, "skipped (filtered by type)").
Proof. split; [reflexivity | discriminate]. Qed.

(** C5, as amended.  When an allow-list is configured and the sniffed
    extension (without its dot) of a fetched payload is not in it, the
    worker deletes the temporary file and changes nothing else on disk,
    returns the success outcome "skipped (type: <extension>)", which is a
    skip distinct from the duplicate skips, raises the filtered-by-type
    counter by exactly one and no other counter, and leaves the ledger
    untouched. *)
Theorem type_filter_skips url filename md image_id w chunks b chunk allowed :
  already_recorded self image_id w = None ->
  dry_run self = false ->
  session self (length (requests w)) url = Body chunks None ->
  head chunks = Some (b :: chunk) ->
  allowed_types self = Some allowed ->
  Path.lstrip_dots (fst (_detect_image_format (b :: chunk))) ∉ allowed ->
  exists status w',
    status = "skipped (type: "
             +:+ Path.lstrip_dots (fst (_detect_image_format (b :: chunk)))
             +:+ ")" /\
    download_image self url filename md image_id w = (Ok (true, status), w') /\
    String.prefix "skipped" status = true /\
    status <> "skipped (exists)" /\
    status <> "skipped (in database)" /\
    status <> "skipped (in log)" /\
    files w' = delete (temp_path self filename) (files w) /\
    db w' = db w /\
    downloaded_ids w' = downloaded_ids w /\
    requests w' = requests w ++ [url] /\
    counters w' = bump_filtered_type (counters w).
Proof.
  intros Hrec Hdry Hnet Hhead Hallow Hout.
  eexists. eexists. split; [reflexivity|].
  munfold. rewrite Hrec, Hdry, Hnet, Hhead, Hallow.
  destruct (_detect_image_format (b :: chunk)) as [ext is_video] eqn:Hfmt.
  cbn [fst] in Hout. rewrite (bool_decide_eq_false_2 _ Hout). cbn [negb].
  split; [reflexivity|].
  split; [reflexivity|].
  repeat (split; [discriminate|]).
  cbn. rewrite delete_insert_eq. repeat split.
Qed.


Lemma make_record_status url filename size md st error folder :
  status (fst (make_record url filename size md st error folder)) = st.
Proof.
  unfold make_record.
  repeat match goal with
         | |- context [let '(_, _) := ?x in _] => destruct x
         end.
  reflexivity.
Qed.



(** C6, the other case.  When an integer of the row does not fit in 64
    bits, the upsert raises inside the [try]: the call is reported as a
    failure, the failed counter is raised instead of the skipped one, and
    the ledger gets no row. *)
Lemma existing_file_ledger_overflow url filename md image_id w chunks b chunk
    filepath meta_path folder warnings content :
  already_recorded self image_id w = None ->
  dry_run self = false ->
  session self (length (requests w)) url = Body chunks None ->
  head chunks = Some (b :: chunk) ->
  (forall allowed,
     allowed_types self = Some allowed ->
     Path.lstrip_dots (fst (_detect_image_format (b :: chunk))) ∈ allowed) ->
  placement self md (snd (_detect_image_format (b :: chunk)))
    (fst (Path.splitext filename))
    (fst (Path.splitext filename)
     +:+ fst (_detect_image_format (b :: chunk)))
  = ((filepath, meta_path, folder), warnings) ->
  files w !! filepath = Some content ->
  use_database self = true ->
  truthy image_id = true ->
  storable (fst (make_record url filepath (Z.of_nat (length content)) md
                   "success" None folder)) = false ->
  exists w',
    download_image self url filename md image_id w
    = (Ok (false, "error: " +:+ overflow_error), w') /\
    files w' = delete (temp_path self filename) (files w) /\
    db w' = db w /\
    counters w' = bump_failed (counters w).
Proof.
  intros Hrec Hdry Hnet Hhead Hallow Hplace Hfile Hdb Hid Hover.
  pose proof (temp_path_fresh filename md (b :: chunk) _ _ _ _ _ Hplace)
    as Hfresh.
  assert (Hfilter :
    match allowed_types self with
    | Some allowed =>
        negb (bool_decide
                (Path.lstrip_dots (fst (_detect_image_format (b :: chunk)))
                 ∈ allowed))
    | None => false
    end = false).
  { destruct (allowed_types self) as [allowed|]; [|reflexivity].
    rewrite (bool_decide_eq_true_2 _ (Hallow allowed eq_refl)). reflexivity. }
  destruct (_detect_image_format (b :: chunk)) as [ext is_video] eqn:Hfmt.
  cbn [fst snd] in *.
  munfold. rewrite Hrec, Hdry, Hnet, Hhead, Hfmt, Hfilter, Hplace.
  cbn [files with_log with_files with_requests].
  rewrite lookup_insert_ne by exact Hfresh. rewrite Hfile.
  rewrite (bool_decide_eq_true_2 _ (ltac:(eauto) : is_Some (Some content))).
  assert (Hafter : delete (temp_path self filename)
                     (<[temp_path self filename := concat chunks]> (files w))
                   !! filepath = Some content).
  { rewrite lookup_delete_ne by exact Hfresh.
    rewrite lookup_insert_ne by exact Hfresh. exact Hfile. }
  unfold already_recorded in Hrec. rewrite Hid, Hdb in Hrec |- *.
  destruct (is_downloaded image_id (db w)) eqn:Hdone; [discriminate|].
  cbn [db with_log with_files with_requests files]. rewrite Hdone.
  cbn [db with_log with_files with_requests files].
  rewrite Hafter. change (default [] (Some content)) with content.
  destruct (make_record url filepath (Z.of_nat (length content)) md
              "success" None folder) as [row ws].
  cbn [fst] in Hover. rewrite Hover.
  cbn [db with_log with_files with_requests files].
  rewrite delete_insert_eq, lookup_delete_eq.
  rewrite (bool_decide_eq_false_2 (is_Some None))
    by (intros [? H]; discriminate H).
  eexists. split; [reflexivity|]. cbn. rewrite delete_insert_eq. auto.
Qed.

(** The upsert of a [success] row returns or raises.  Either way every
    satisfied identifier stays satisfied, and when it returns its own
    identifier is satisfied. *)
Lemma log_download_db_run image_id url filename size md folder w :
  exists r w',
    _log_download_db image_id url filename size md "success" None folder w
    = (r, w') /\
    (forall other, is_downloaded other (db w) = true ->
                   is_downloaded other (db w') = true) /\
    (r = Ok tt -> is_downloaded image_id (db w') = true).
Proof.
  assert (Hrow : forall d (row : DownloadRecord) other,
            status row = "success" ->
            (other = image_id \/ is_downloaded other d = true) ->
            match <[py_str image_id := row]> (downloads d) !! py_str other with
            | Some r => satisfied r
            | None => false
            end = true).
  { intros d row other Hst Hother.
    destruct (decide (py_str image_id = py_str other)) as [Heq | Hne].
    - rewrite Heq, lookup_insert_eq. unfold satisfied. rewrite Hst.
      reflexivity.
    - rewrite lookup_insert_ne by exact Hne.
      destruct Hother as [-> | H]; [contradiction | exact H]. }
  unfold _log_download_db.
  pose proof (make_record_status url filename size md "success" None folder)
    as Hst.
  destruct (make_record url filename size md "success" None folder)
    as [row ws]. cbn [fst] in Hst.
  cbv [bind log_all modify ret raise _store_generation_params _store_tags].
  destruct (storable row);
    [destruct md as [m|];
       [destruct (Item.meta m) as [meta|], (Item.tags m);
          [destruct (params_storable meta) ..| |]|]|];
    eexists; eexists; (split; [reflexivity|]); unfold is_downloaded; cbn;
    (split; [try (intros other H; apply Hrow; auto); auto|]);
    try (intros _; apply Hrow; auto); try discriminate.
Qed.

(** What a call does to the ledger: identifiers that were satisfied stay
    satisfied, and in database mode a download or an already-exists skip
    of a given identifier leaves it satisfied. *)
Lemma download_image_ledger url filename md image_id w :
  exists outcome w',
    download_image self url filename md image_id w = (Ok outcome, w') /\
    (forall other, is_downloaded other (db w) = true ->
                   is_downloaded other (db w') = true) /\
    (use_database self = true -> truthy image_id = true ->
     snd outcome = "downloaded" \/ snd outcome = "skipped (exists)" ->
     is_downloaded image_id (db w') = true).
Proof.
  cbv [download_image fetch_and_store on_exception store_new skip_existing
       fetch_to_temp try_except bind ret get modify raise log_all
       incr_downloaded incr_skipped incr_failed incr_filtered_type
       add_download Fs.exists_ Fs.remove Fs.write Fs.rename Fs.st_size
       _is_downloaded_db _log_download].
  repeat first
    [ match goal with
      | |- context [_log_download_db ?a ?b ?c ?d ?e "success" None ?f ?w0] =>
          let H := fresh "Hlog" in
          destruct (log_download_db_run a b c d e f w0)
            as ([[]|] & ? & H & ? & ?);
          rewrite H
      end
    | split_world ].
  all: eexists; eexists; (split; [reflexivity|]).
  all: cbn [snd db with_counters with_stats with_files with_log
            with_requests with_text_log] in *.
  all: split; [auto|].
  all: intros Hdb Hid [Hout | Hout]; try discriminate Hout; auto.
  all: try congruence.
  all: try (injection Hout as Hout;
            repeat match type of Hout with
                   | String _ _ = String _ _ => injection Hout as _ Hout
                   end; discriminate Hout).
  all: unfold already_recorded in *;
       repeat match goal with
              | H : context [if ?b then _ else _] |- _ => destruct b eqn:?
              end; congruence.
Qed.

(** Idempotence at one item: once an identifier has been downloaded (or
    found on disk) in database mode, the next encounter is the duplicate
    skip, whose whole effect is one bump of the skipped counter. *)
Lemma second_encounter_skips url filename md image_id w status w1 :
  use_database self = true ->
  truthy image_id = true ->
  download_image self url filename md image_id w = (Ok (true, status), w1) ->
  status = "downloaded" \/ status = "skipped (exists)" ->
  forall url' filename' md',
    download_image self url' filename' md' image_id w1
    = (Ok (true, "skipped (in database)"), with_counters bump_skipped w1).
Proof.
  intros Hdb Hid Hrun Hstatus url' filename' md'.
  destruct (download_image_ledger url filename md image_id w)
    as (outcome & w' & Hrun' & _ & Hsat).
  rewrite Hrun in Hrun'. injection Hrun' as <- <-.
  apply download_image_recorded; auto.
Qed.

End WorkerFacts.

(* ===================================================================== *)
(** ** Retry wrapper *)
(* ===================================================================== *)

Section RetryFacts.
Import Worker Dispatcher.
Variable self : Scraper.
Variables (url filename : string) (md : option Item.t) (image_id : pyval).
Variables (max_retries backoff_factor : Z).

Local Abbreviation attempt := (download_image self url filename md image_id).
Local Abbreviation loop :=
  (retry_loop self url filename md image_id max_retries backoff_factor).
Local Abbreviation pause := (paused filename max_retries backoff_factor).
Local Abbreviation made :=
  (attempts_made self url filename md image_id max_retries backoff_factor).
Local Abbreviation exhausted le w :=
  (Ok (false, failed_after max_retries le),
   with_log (fun l => l ++ [ErrorFailedAfter max_retries filename le]) w).

(** One turn of the loop: a success or a skip is returned at once; after
    a failure the loop goes on from the paused world. *)
Lemma retry_loop_step n rest last_error w outcome w1 :
  attempt w = (Ok outcome, w1) ->
  loop (n :: rest) last_error w
  = if settles outcome then (Ok outcome, w1)
    else loop rest (PStr (snd outcome)) (pause n (snd outcome) w1).
Proof.
  intros Hrun. destruct outcome as [success status].
  cbn [retry_loop]. unfold attempt_once, try_except, bind at 1 2.
  rewrite Hrun. unfold settles, paused. cbn [fst snd].
  destruct (success || String.prefix "skipped" status); [reflexivity|].
  unfold bind, back_off.
  destruct (n <? max_retries); reflexivity.
Qed.

Lemma retry_loop_nil last_error w : loop [] last_error w = exhausted last_error w.
Proof. reflexivity. Qed.

(** The pause sleeps [backoff_factor ^ (n - 1)] before every attempt but
    the one after the last. *)
Lemma paused_sleeps n status w :
  sleeps (pause n status w)
  = if n <? max_retries then sleeps w ++ [backoff_factor ^ (n - 1)]
    else sleeps w.
Proof. unfold paused, back_off. destruct (n <? max_retries); reflexivity. Qed.

Lemma paused_last n status w : max_retries <= n -> pause n status w = w.
Proof.
  intros H. unfold paused, back_off.
  destruct (Z.ltb_spec n max_retries); [lia | reflexivity].
Qed.

(** The loop from attempt [a] with [k] attempts left, the last of which
    has number [max_retries]. *)
Lemma retry_loop_run (k : nat) : forall (a : nat) last_error w,
  (1 <= a)%nat ->
  k = 0%nat \/ Z.of_nat (a + k) = max_retries + 1 ->
  exists outcomes w_end,
    made (Z.of_nat a) w outcomes w_end /\
    (length outcomes <= k)%nat /\
    (k <> 0%nat -> outcomes <> []) /\
    Forall (fun o => settles o = false) (removelast outcomes) /\
    sleeps (snd (loop (Z.of_nat <$> seq a k) last_error w))
    = sleeps w
      ++ ((fun j => backoff_factor ^ Z.of_nat j)
          <$> seq (a - 1) (length outcomes - 1)) /\
    match last outcomes with
    | None => loop (Z.of_nat <$> seq a k) last_error w = exhausted last_error w
    | Some o =>
        if settles o then
          loop (Z.of_nat <$> seq a k) last_error w = (Ok o, w_end)
        else
          length outcomes = k /\
          loop (Z.of_nat <$> seq a k) last_error w
          = exhausted (PStr (snd o)) w_end
    end.
Proof.
  induction k as [|k IH]; intros a last_error w Ha Hmax.
  - exists [], w.
    split; [constructor|].
    split; [reflexivity|].
    split; [congruence|].
    split; [constructor|].
    split; [simpl; rewrite app_nil_r; reflexivity | reflexivity].
  - destruct Hmax as [Hmax | Hmax]; [discriminate|].
    destruct (download_image_run self url filename md image_id w)
      as ([success status] & w1 & Hrun & Hpath & Hsl & _).
    cbn [seq fmap list_fmap].
    rewrite (retry_loop_step _ _ _ _ _ _ Hrun).
    destruct (settles (success, status)) eqn:Hset.
    + exists [(success, status)], w1.
      split; [apply attempts_last; exact Hrun|].
      split; [cbn; lia|].
      split; [discriminate|].
      split; [constructor|].
      split; [simpl; rewrite app_nil_r; exact Hsl|].
      cbn [last]. rewrite Hset. reflexivity.
    + cbn [snd].
      destruct (IH (S a) (PStr status) (pause (Z.of_nat a) status w1))
        as (outs & w_end & Hmade & Hlen & Hne & Hfail & Hsleeps & Hres);
        [lia | right; lia |].
      destruct outs as [|next rest].
      * assert (k = 0)%nat as -> by (destruct k; [reflexivity | exfalso; apply Hne; [lia | reflexivity]]).
        cbn [last] in Hres.
        rewrite paused_last in Hres |- * by lia.
        exists [(success, status)], w1.
        split; [apply attempts_last; exact Hrun|].
        split; [cbn; lia|].
        split; [discriminate|].
        split; [constructor|].
        split; [rewrite Hres; simpl; rewrite app_nil_r; exact Hsl|].
        cbn [last]. rewrite Hset. split; [reflexivity | exact Hres].
      * exists ((success, status) :: next :: rest), w_end.
        split.
        { eapply attempts_more; [exact Hrun|].
          replace (Z.of_nat a + 1) with (Z.of_nat (S a)) by lia.
          exact Hmade. }
        split; [cbn in *; lia|].
        split; [discriminate|].
        split; [cbn [removelast]; constructor; [exact Hset | exact Hfail]|].
        split.
        { rewrite Hsleeps, paused_sleeps, Hsl.
          assert (k <> 0)%nat by (cbn in Hlen; lia).
          destruct (Z.ltb_spec (Z.of_nat a) max_retries); [|lia].
          cbn [length]. rewrite <- app_assoc. f_equal.
          replace (S (S (length rest)) - 1)%nat
            with (S (length rest)) by lia.
          replace (S (length rest) - 1)%nat with (length rest) by lia.
          cbn [seq fmap list_fmap]. cbn [app].
          replace (S a - 1)%nat with (S (a - 1)) by lia.
          f_equal. f_equal. lia. }
        change (last ((success, status) :: next :: rest))
          with (last (next :: rest)).
        destruct (last (next :: rest)) as [o|] eqn:Hlast;
          [|apply last_None in Hlast; discriminate Hlast].
        destruct (settles o); [exact Hres|].
        destruct Hres as [Hk Hres]. split; [cbn in *; lia | exact Hres].
Qed.

(** A success or a skip at the first attempt is the result of the whole
    wrapper, and the world is the one that attempt left. *)
Lemma retry_returns_at_once w outcome w1 :
  1 <= max_retries ->
  attempt w = (Ok outcome, w1) ->
  settles outcome = true ->
  _download_with_retry self url filename md image_id max_retries
    backoff_factor w = (Ok outcome, w1).
Proof.
  intros Hmax Hrun Hset. unfold _download_with_retry, range_from_1.
  destruct (Z.to_nat max_retries) as [|k] eqn:Hk; [lia|].
  cbn [seq fmap list_fmap].
  rewrite (retry_loop_step _ _ _ _ _ _ Hrun), Hset. reflexivity.
Qed.


End RetryFacts.

(* ===================================================================== *)
(** ** Batch dispatcher: re-running over a satisfied ledger *)
(* ===================================================================== *)

Section BatchFacts.
Import Worker Ledger Dispatcher.
Variable self : Scraper.
Hypothesis database_mode : use_database self = true.
Hypothesis some_attempt : enable_retry self = true -> 1 <= max_retries self.

(** A task whose identifier is given and satisfied in the ledger [d]. *)
Local Abbreviation satisfied_in d :=
  (fun t : task =>
     truthy (task_image_id t) = true /\
     is_downloaded (task_image_id t) d = true).

Lemma run_task_recorded t w :
  satisfied_in (db w) t ->
  run_task self t w
  = (Ok (true, "skipped (in database)"), with_counters bump_skipped w).
Proof.
  intros [Hid Hrec]. unfold run_task.
  pose proof (download_image_recorded self (task_url t) (task_filename t)
                (task_metadata t) (task_image_id t) w database_mode Hid Hrec)
    as Hrun.
  destruct (enable_retry self) eqn:Hretry; [|exact Hrun].
  apply retry_returns_at_once; [auto | exact Hrun | reflexivity].
Qed.

Lemma collect_recorded progress_bar t w :
  satisfied_in (db w) t ->
  collect self progress_bar t w
  = (Ok 0,
     if progress_bar then with_counters bump_skipped w
     else with_log (fun l => l ++ [InfoSkipped (task_filename t)])
            (with_counters bump_skipped w)).
Proof.
  intros Ht. unfold collect, try_except, bind at 1.
  rewrite (run_task_recorded t w Ht).
  destruct progress_bar; reflexivity.
Qed.

Lemma run_batch_recorded progress_bar schedule : forall w,
  Forall (satisfied_in (db w)) schedule ->
  exists w',
    run_batch self progress_bar schedule w = (Ok 0, w') /\
    requests w' = requests w /\
    db w' = db w /\
    files w' = files w /\
    sleeps w' = sleeps w /\
    downloaded_count (counters w') = downloaded_count (counters w) /\
    skipped_count (counters w')
    = skipped_count (counters w) + Z.of_nat (length schedule) /\
    failed_count (counters w') = failed_count (counters w) /\
    filtered_type_count (counters w') = filtered_type_count (counters w).
Proof.
  induction schedule as [|t rest IH]; intros w Hall.
  - exists w. cbn. repeat split; lia.
  - inversion Hall as [|? ? Ht Hrest]; subst.
    cbn [run_batch]. unfold bind at 1.
    rewrite (collect_recorded progress_bar t w Ht).
    set (w1 := if progress_bar then _ else _).
    assert (Hw1 : db w1 = db w /\ requests w1 = requests w /\
                  files w1 = files w /\ sleeps w1 = sleeps w /\
                  counters w1 = bump_skipped (counters w))
      by (subst w1; destruct progress_bar; repeat split).
    destruct Hw1 as (Hdb & Hreq & Hfiles & Hsl & Hc).
    destruct (IH w1) as (w' & Hrun & Hr' & Hd' & Hf' & Hs' & Hc1 & Hc2
                         & Hc3 & Hc4); [rewrite Hdb; exact Hrest|].
    exists w'. unfold bind. rewrite Hrun. cbn [ret].
    rewrite Hr', Hd', Hf', Hs', Hc1, Hc2, Hc3, Hc4, Hc.
    cbn [length bump_skipped downloaded_count skipped_count failed_count
         filtered_type_count].
    repeat split; auto; lia.
Qed.

(** The tasks built from items that all carry a URL: one per item, with
    the item's identifier. *)
Lemma build_tasks_all items save_metadata :
  Forall (fun item => truthy (Item.url item) = true) items ->
  task_image_id <$> build_tasks items save_metadata = Item.id <$> items.
Proof.
  induction 1 as [|item items Hurl _ IH]; [reflexivity|].
  unfold build_tasks in *. cbn [omap list_omap]. rewrite Hurl.
  cbn [fmap list_fmap task_image_id]. f_equal. exact IH.
Qed.

(** C1, counterexample: the identifier 0 has a [success] row in the
    ledger, yet the worker does not skip it: it sends a request and
    returns "downloaded". *)
Lemma recorded_id_0_is_fetched :
  (exists row,
     downloads (db (Samples.recorded "0")) !! py_str (PInt 0) = Some row /\
     status row = "success") /\
  fst (download_image
         (Samples.scraper None false (Samples.serves Samples.png_payload))
         "https://image.example/0.png" "civitai_0.tmp" None (PInt 0)
         (Samples.recorded "0"))
  = Ok (true, "downloaded") /\
  requests
    (snd (download_image
            (Samples.scraper None false (Samples.serves Samples.png_payload))
            "https://image.example/0.png" "civitai_0.tmp" None (PInt 0)
            (Samples.recorded "0")))
  = ["https://image.example/0.png"].
Proof.
  split; [|split]; [|vm_compute; reflexivity..].
  eexists. split; [vm_compute; reflexivity | reflexivity].
Qed.

(** C1, as amended.  In database mode, for every item whose identifier is
    given (not [None], 0 or empty) and already has a ledger row with
    status [success] or [migrated], [download_image] returns the skip
    outcome "skipped (in database)" and its whole effect is one bump of
    the skipped counter: no request is sent.  When moreover every item of
    the set carries a URL and the wrapper is allowed at least one attempt,
    running the batch, in whatever order the tasks are taken, downloads
    nothing, sends no request, leaves ledger and files as they are, and
    raises the skipped counter by the number of items (so it ends equal to
    the item count in a fresh process). *)
Theorem rerun_skips_every_item items save_metadata progress_bar schedule w :
  Forall (fun item =>
            truthy (Item.id item) = true /\
            truthy (Item.url item) = true /\
            exists row,
              downloads (db w) !! py_str (Item.id item) = Some row /\
              (status row = "success" \/ status row = "migrated")) items ->
  schedule ≡ₚ build_tasks items save_metadata ->
  (forall item url filename md,
     item ∈ items ->
     download_image self url filename md (Item.id item) w
     = (Ok (true, "skipped (in database)"), with_counters bump_skipped w) /\
     requests (with_counters bump_skipped w) = requests w) /\
  exists w',
    run_batch self progress_bar schedule w = (Ok 0, w') /\
    requests w' = requests w /\
    db w' = db w /\
    files w' = files w /\
    downloaded_count (counters w') = downloaded_count (counters w) /\
    skipped_count (counters w')
    = skipped_count (counters w) + Z.of_nat (length items) /\
    failed_count (counters w') = failed_count (counters w) /\
    filtered_type_count (counters w') = filtered_type_count (counters w).
Proof.
  intros Hitems Hperm. split.
  - intros item url filename md Hin. split; [|reflexivity].
    rewrite Forall_forall in Hitems.
    destruct (Hitems item Hin) as (Hid & _ & Hrow).
    apply download_image_recorded; [exact database_mode | exact Hid |].
    apply is_downloaded_spec. exact Hrow.
  - assert (Hurls : Forall (fun item => truthy (Item.url item) = true) items)
      by (eapply Forall_impl; [exact Hitems | intros ? (_ & H & _); exact H]).
    pose proof (build_tasks_all items save_metadata Hurls) as Hids.
    assert (Hsat : Forall (satisfied_in (db w)) schedule).
    { rewrite Hperm.
      assert (Hmap : Forall (fun image_id =>
                truthy image_id = true /\
                is_downloaded image_id (db w) = true)
                (task_image_id <$> build_tasks items save_metadata)).
      { rewrite Hids. apply Forall_fmap.
        eapply Forall_impl; [exact Hitems|].
        intros item (Hid & _ & Hrow). split; [exact Hid|].
        apply is_downloaded_spec. exact Hrow. }
      apply Forall_fmap in Hmap. exact Hmap. }
    assert (Hlen : length schedule = length items).
    { rewrite Hperm.
      rewrite <- (length_fmap task_image_id), Hids. apply length_fmap. }
    destruct (run_batch_recorded progress_bar schedule w Hsat)
      as (w' & Hrun & Hreq & Hdb & Hfiles & _ & Hc1 & Hc2 & Hc3 & Hc4).
    exists w'. rewrite <- Hlen. auto 10.
Qed.

End BatchFacts.

(* ===================================================================== *)
(** ** The theorems at sample runs *)
(* ===================================================================== *)

Section SampleRuns.
Import Worker Ledger Dispatcher Samples Runs Sniffer.

(** Witness of C9: a dry run over the fresh world. *)
Lemma dry_run_simulates_witness :
  exists w',
    download_image (scraper None true (serves png_payload))
      "https://image.example/7.png" "civitai_7.tmp"
      (Some (sample_item (PInt 7))) (PInt 7) fresh
    = (Ok (true, "simulated"), w') /\
    requests w' = [] /\
    files w' = ∅ /\
    downloaded_count (counters w') = 1.
Proof.
  destruct (dry_run_simulates (scraper None true (serves png_payload))
              "https://image.example/7.png" "civitai_7.tmp"
              (Some (sample_item (PInt 7))) (PInt 7) fresh)
    as (w' & Hrun & Hreq & Hfiles & _ & _ & _ & Hc);
    [reflexivity | reflexivity |].
  exists w'. rewrite Hc. auto.
Defined.

(** Witness of C5: allow-list ["png"], JPEG payload. *)
Lemma type_filter_skips_witness :
  exists w',
    download_image (scraper (Some ["png"]) false (serves jpeg_payload))
      "https://image.example/7.jpeg" "civitai_7.tmp" None (PInt 7) fresh
    = (Ok (true, "skipped (type: jpg)"), w') /\
    db w' = empty_db /\
    files w' !! "downloads/temp_civitai_7.tmp" = None /\
    counters w'
    = {| downloaded_count := 0; skipped_count := 0; failed_count := 0;
         filtered_type_count := 1 |}.
Proof.
  destruct (type_filter_skips
              (scraper (Some ["png"]) false (serves jpeg_payload))
              "https://image.example/7.jpeg" "civitai_7.tmp" None (PInt 7)
              fresh [jpeg_payload] xff [xd8; xff; xe0; x00; x10] ["png"])
    as (status & w' & -> & Hrun & _ & _ & _ & _ & Hfiles & Hdb & _ & _ & Hc);
    [reflexivity | reflexivity | reflexivity | reflexivity | reflexivity | |].
  - intros H. apply list_elem_of_singleton in H. discriminate H.
  - exists w'. split; [exact Hrun|]. split; [exact Hdb|].
    split; [rewrite Hfiles; apply lookup_delete_eq | exact Hc].
Defined.



(** Witness of C1: the second run over the same two items. *)
Lemma rerun_skips_every_item_witness :
  downloaded_count (counters after_first_run) = 2 /\
  skipped_count (counters after_first_run) = 0 /\
  exists w',
    _download_batch steady two_items true false after_first_run
    = (Ok 0, w') /\
    requests w' = requests after_first_run /\
    downloaded_count (counters w') = 2 /\
    skipped_count (counters w') = 2.
Proof.
  split; [reflexivity|]. split; [reflexivity|].
  destruct (rerun_skips_every_item steady eq_refl
              (fun _ => ltac:(vm_compute; discriminate) : 1 <= 3)
              two_items true false (build_tasks two_items true)
              after_first_run)
    as (_ & w' & Hrun & Hreq & _ & _ & Hdl & Hsk & _).
  - repeat constructor; apply is_downloaded_spec; vm_compute; reflexivity.
  - reflexivity.
  - exists w'. split; [exact Hrun|]. split; [exact Hreq|].
    split; [rewrite Hdl; reflexivity | rewrite Hsk; reflexivity].
Defined.

End SampleRuns.

(* ===================================================================== *)
(** * Further properties of the pipeline *)
(* ===================================================================== *)

(** ** The worker and the disk *)

Section WorkerDisk.
Import Worker Ledger Sniffer.
Variable self : Scraper.

Lemma append_assoc (a b c : string) : (a +:+ b) +:+ c = a +:+ b +:+ c.
Proof.
  induction a as [|x a IH]; [reflexivity|].
  change (String x ((a +:+ b) +:+ c) = String x (a +:+ b +:+ c)).
  rewrite IH. reflexivity.
Qed.









(** The metadata file chosen by [placement] is a [.json] file. *)
Lemma meta_path_json md is_video base correct_filename filepath meta_path
    folder warnings :
  placement self md is_video base correct_filename
  = ((filepath, meta_path, folder), warnings) ->
  exists stem, meta_path = stem +:+ ".json".
Proof.
  unfold placement, Path.join.
  destruct (organize_by_nsfw self).
  - destruct (Rating._get_nsfw_folder _) as [nsfw_folder ws].
    intros [= _ <- _ _]. eexists.
    rewrite <- !append_assoc. reflexivity.
  - intros [= _ <- _ _]. eexists.
    rewrite <- !append_assoc. reflexivity.
Qed.

(** The metadata file is never the temporary file. *)
Lemma meta_path_not_temp filename md is_video base correct_filename filepath
    meta_path folder warnings :
  placement self md is_video base correct_filename
  = ((filepath, meta_path, folder), warnings) ->
  temp_path self filename <> meta_path.
Proof.
  unfold placement, temp_path, metadata_dir, Rating._get_nsfw_folder.
  intros Hplace Heq. apply (f_equal chars) in Heq.
  destruct (organize_by_nsfw self).
  - destruct (Rating._convert_nsfw_to_level _) as [level ws].
    injection Hplace as _ <- _ _.
    destruct (level <=? 1);
      rewrite ?chars_join, <- ?app_assoc in Heq;
      apply app_inv_head in Heq; discriminate Heq.
  - injection Hplace as _ <- _ _.
    rewrite ?chars_join, <- ?app_assoc in Heq.
    apply app_inv_head in Heq. discriminate Heq.
Qed.


(** What a call does to the disk and to the network.  Either it sends no
    request and leaves the files alone (duplicate skip, dry run); or it
    sends one request to [url] and only removes the temporary file; or
    it sends one request and stores a new file at a path that was free,
    with its metadata file when metadata is given (and it reports a
    failure then, if the ledger raises). *)
Lemma download_image_disk url filename md image_id w :
  exists outcome w',
    download_image self url filename md image_id w = (Ok outcome, w') /\
    ((files w' = files w /\ requests w' = requests w /\
      snd outcome <> "downloaded" /\
      (already_recorded self image_id w <> None \/ dry_run self = true)) \/
     (files w' = delete (temp_path self filename) (files w) /\
      requests w' = requests w ++ [url] /\
      snd outcome <> "downloaded") \/
     (exists chunks data filepath meta_path folder warnings,
        session self (length (requests w)) url = Body chunks None /\
        placement self md (snd (_detect_image_format data))
          (fst (Path.splitext filename))
          (fst (Path.splitext filename)
           +:+ fst (_detect_image_format data))
        = ((filepath, meta_path, folder), warnings) /\
        files w !! filepath = None /\
        (outcome = (true, "downloaded") \/ fst outcome = false) /\
        requests w' = requests w ++ [url] /\
        files w'
        = match md with
          | Some m => <[meta_path := json_dump self m]>
          | None => fun fs => fs
          end (<[filepath := concat chunks]>
                 (delete (temp_path self filename) (files w))))).
Proof.
  munfold. fold (temp_path self filename).
  repeat split_world.
  all: eexists; eexists; (split; [reflexivity|]).
  all: cbn [fst snd files requests with_counters with_stats with_files
            with_log with_requests with_text_log with_db] in *.
  all: rewrite ?lookup_insert_eq, ?delete_insert_eq, ?lookup_delete_eq in *.
  all: try solve [exfalso;
                  match goal with
                  | H : bool_decide (is_Some (Some _)) = false |- _ =>
                      cbn in H; discriminate H
                  | H : bool_decide (is_Some None) = true |- _ =>
                      cbn in H; discriminate H
                  end].
  all: try solve [exfalso;
       match goal with
       | Hfmt : _detect_image_format ?data = (?ext, ?v),
         Hplace : placement _ ?md' ?v (fst (Path.splitext ?fn)) _
                  = (?fp, ?mp, ?fo, ?ws),
         H : bool_decide (is_Some (_ !! temp_path _ ?fn)) = true |- _ =>
           pose proof (temp_path_fresh self fn md' data v fp mp fo ws)
             as Hfresh;
           rewrite Hfmt in Hfresh; cbn [fst snd] in Hfresh;
           specialize (Hfresh Hplace);
           pose proof (meta_path_not_temp fn _ _ _ _ _ _ _ _ Hplace)
             as Hmeta;
           rewrite ?lookup_insert_ne, lookup_delete_eq in H by auto;
           cbn in H; discriminate H
       end].
  all: try solve [left; repeat split; first [discriminate | auto]].
  all: try solve [right; left; repeat split; discriminate].
  all: try solve [left; repeat split; try (left; congruence);
                  unfold already_recorded in *;
                  repeat match goal with
                         | H : context [if ?b then _ else _] |- _ =>
                             destruct b
                         end; simplify_eq; discriminate].
  all: try solve [match goal with
       | H : bool_decide (is_Some (files _ !! temp_path _ _)) = false
         |- _ =>
           apply bool_decide_eq_false_1 in H;
           rewrite <- eq_None_not_Some in H;
           right; left; split; [symmetry; apply delete_id; exact H|];
           split; [reflexivity | discriminate]
       end].
  all: right; right;
       match goal with
       | Hfmt : _detect_image_format ?data = (?ext, ?v),
         Hplace : placement _ ?md' ?v (fst (Path.splitext ?fn)) _
                  = (?fp, ?mp, ?fo, ?ws),
         Hnet : session _ _ _ = Body ?chunks None,
         Hfree : bool_decide (is_Some (_ !! ?fp)) = false |- _ =>
           exists chunks, data, fp, mp, fo, ws;
           pose proof (temp_path_fresh self fn md' data v fp mp fo ws)
             as Hfresh;
           rewrite Hfmt in Hfresh |- *; cbn [fst snd] in Hfresh |- *;
           specialize (Hfresh Hplace);
           apply bool_decide_eq_false_1 in Hfree;
           rewrite <- eq_None_not_Some in Hfree;
           rewrite lookup_insert_ne in Hfree by exact Hfresh;
           auto 10
       end.
Qed.


(** Whether a call reaches the network. *)
Lemma worker_sent url filename md image_id w :
  exists outcome w',
    download_image self url filename md image_id w = (Ok outcome, w') /\
    ((requests w' = requests w /\
      (already_recorded self image_id w <> None \/ dry_run self = true)) \/
     (requests w' = requests w ++ [url] /\
      already_recorded self image_id w = None /\ dry_run self = false)).
Proof.
  munfold.
  repeat split_world.
  all: eexists; eexists; (split; [reflexivity|]).
  all: cbn [requests with_counters with_stats with_files with_log
            with_requests with_text_log with_db].
  all: first [ left; split; [reflexivity|]; first [left; congruence | auto]
             | right; auto ].
Qed.


(** X2.  No call overwrites or removes a file that is already on disk,
    except its own temporary file and a [.json] metadata file: every
    other file is there afterwards with the content it had. *)
Theorem worker_keeps_existing_files url filename md image_id w path content :
  files w !! path = Some content ->
  path <> temp_path self filename ->
  (forall stem, path <> stem +:+ ".json") ->
  exists outcome w',
    download_image self url filename md image_id w = (Ok outcome, w') /\
    files w' !! path = Some content.
Proof.
  intros Hfile Htemp Hjson.
  destruct (download_image_disk url filename md image_id w)
    as (outcome & w' & Hrun & Hdisk).
  exists outcome, w'. split; [exact Hrun|].
  destruct Hdisk as [(Hf & _) | [(Hf & _) | Hnew]].
  - rewrite Hf. exact Hfile.
  - rewrite Hf, lookup_delete_ne by auto. exact Hfile.
  - destruct Hnew as (chunks & data & filepath & meta_path & folder
                      & warnings & _ & Hplace & Hfree & _ & _ & Hf).
    destruct (meta_path_json _ _ _ _ _ _ _ _ Hplace) as [stem Hstem].
    assert (meta_path <> path) by (rewrite Hstem; auto).
    assert (filepath <> path) by congruence.
    rewrite Hf.
    destruct md; cbn beta iota; rewrite ?lookup_insert_ne by auto;
      rewrite lookup_delete_ne by auto; exact Hfile.
Qed.

(** X3.  A call sends no request exactly when it is a duplicate skip or a
    dry run, and it never sends more than one: the list of requests
    either stays as it is or grows by the URL given. *)
Theorem worker_sends_at_most_one_request url filename md image_id w :
  exists outcome w',
    download_image self url filename md image_id w = (Ok outcome, w') /\
    (requests w' = requests w <->
     already_recorded self image_id w <> None \/ dry_run self = true) /\
    (requests w' = requests w \/ requests w' = requests w ++ [url]).
Proof.
  destruct (worker_sent url filename md image_id w)
    as (outcome & w' & Hrun & Hcases).
  exists outcome, w'. split; [exact Hrun|].
  assert (Hgrow : requests w ++ [url] <> requests w).
  { intros H. apply (f_equal (@length string)) in H.
    rewrite length_app in H. simpl in H. lia. }
  destruct Hcases as [[Hsame Hwhy] | [Hsent Hwhy]].
  - split; [|left; exact Hsame]. split; auto.
  - split; [|right; exact Hsent]. rewrite Hsent. split.
    + intros H. contradiction.
    + intros [H | H]; [destruct Hwhy as [Hw _]; contradiction|].
      destruct Hwhy as [_ Hd]. congruence.
Qed.


(** ** The return paths of the worker that follow a request *)



(** The other case of the download path: the file is in place when the
    ledger rejects an integer of the row, here a width of 2^63.  The
    call is then reported as a failure, counted as one, and the ledger
    has no row for the identifier. *)
Lemma stored_file_ledger_overflow :
  exists w',
    download_image (Samples.scraper None false (Samples.serves
                                                  Samples.png_payload))
      "https://image.example/7.png" "civitai_7.tmp"
      (Some (Fixtures.wide_item (PInt 7))) (PInt 7) Samples.fresh
    = (Ok (false, "error: " +:+ overflow_error), w') /\
    files w' !! "downloads/civitai_7.png" = Some Samples.png_payload /\
    downloads (db w') !! "7" = None /\
    failed_count (counters w') = 1 /\
    downloaded_count (counters w') = 0.
Proof. eexists. vm_compute. repeat split. Qed.

(** X5.  The empty payload.  When the stream yields no chunk, or an empty
    first chunk whatever follows it, the worker removes the temporary
    file, returns the failure "error: empty file", raises the failed
    counter by one and touches neither the ledger nor the text log. *)
Theorem empty_payload_fails url filename md image_id w chunks :
  already_recorded self image_id w = None ->
  dry_run self = false ->
  session self (length (requests w)) url = Body chunks None ->
  head chunks = None \/ head chunks = Some [] ->
  exists w',
    download_image self url filename md image_id w
    = (Ok (false, "error: empty file"), w') /\
    files w' = delete (temp_path self filename) (files w) /\
    db w' = db w /\
    downloaded_ids w' = downloaded_ids w /\
    requests w' = requests w ++ [url] /\
    counters w' = bump_failed (counters w).
Proof.
  intros Hrec Hdry Hnet Hhead.
  munfold. rewrite Hrec, Hdry, Hnet. fold (temp_path self filename).
  destruct Hhead as [-> | ->];
    (eexists; split; [reflexivity|]); cbn;
    rewrite delete_insert_eq; repeat split.
Qed.


End WorkerDisk.

(** ** What the retry wrapper does to the counters *)

Section RetryCounts.
Import Worker Dispatcher.
Variable self : Scraper.
Variables (url filename : string) (md : option Item.t) (image_id : pyval).
Variables (max_retries backoff_factor : Z).

Local Abbreviation attempt := (download_image self url filename md image_id).
Local Abbreviation pause := (paused filename max_retries backoff_factor).
Local Abbreviation made :=
  (attempts_made self url filename md image_id max_retries backoff_factor).
Local Abbreviation failures :=
  (fun outcomes : list (bool * string) =>
     length (List.filter (fun o => negb (fst o)) outcomes)).

Lemma return_path_counts c outcome c' :
  return_path c outcome c' ->
  total_processed c' = total_processed c + 1 /\
  failed_count c' = failed_count c + (if fst outcome then 0 else 1).
Proof. intros []; unfold total_processed; cbn; lia. Qed.

Lemma paused_frame n status w :
  counters (pause n status w) = counters w /\
  requests (pause n status w) = requests w.
Proof. unfold paused, back_off. destruct (n <? max_retries); auto. Qed.

(** Every attempt of a chain is counted once, and a failure is never a
    skip. *)
Lemma attempts_count a w outcomes w_end :
  made a w outcomes w_end ->
  total_processed (counters w_end)
  = total_processed (counters w) + Z.of_nat (length outcomes) /\
  failed_count (counters w_end)
  = failed_count (counters w) + Z.of_nat (failures outcomes) /\
  (length (requests w_end) <= length (requests w) + length outcomes)%nat /\
  Forall (fun o => fst o = false -> settles o = false) outcomes.
Proof.
  assert (Hone : forall w0 outcome w1,
            attempt w0 = (Ok outcome, w1) ->
            total_processed (counters w1) = total_processed (counters w0) + 1
            /\ failed_count (counters w1)
               = failed_count (counters w0) + (if fst outcome then 0 else 1)
            /\ (length (requests w1) <= length (requests w0) + 1)%nat
            /\ (fst outcome = false -> settles outcome = false)).
  { intros w0 outcome w1 Hrun.
    destruct (download_image_run self url filename md image_id w0)
      as (o & w' & Hrun' & Hpath & _ & Hreq).
    rewrite Hrun in Hrun'. injection Hrun' as <- <-.
    destruct (return_path_counts _ _ _ Hpath) as [Ht Hf].
    repeat split; auto.
    intros Hfail. unfold settles. rewrite Hfail.
    apply (failure_not_skipped _ _ _ Hpath Hfail). }
  induction 1 as [a w | a w outcome w1 Hrun
                 | a w success status w1 next rest w2 Hrun Hmade IH].
  - cbn. split; [lia|]. split; [lia|]. split; [lia | constructor].
  - destruct (Hone _ _ _ Hrun) as (Ht & Hf & Hr & Hs).
    cbn [length List.filter]. rewrite Ht, Hf.
    destruct (fst outcome) eqn:Hfst; cbn [negb length];
      (split; [lia|]); (split; [lia|]); (split; [lia|]);
      repeat constructor; rewrite Hfst; auto.
  - destruct (Hone _ _ _ Hrun) as (Ht & Hf & Hr & Hs).
    destruct IH as (IHt & IHf & IHr & IHs).
    destruct (paused_frame a status w1) as [Hpc Hpr].
    rewrite Hpc in IHt, IHf. rewrite Hpr in IHr.
    rewrite IHt, IHf, Ht, Hf.
    destruct success; cbn [List.filter fst negb length] in *;
      (split; [lia|]); (split; [lia|]); (split; [lia|]);
      constructor; auto.
Qed.

(** The wrapper always returns. *)
Lemma download_with_retry_returns w :
  exists outcome w',
    _download_with_retry self url filename md image_id max_retries
      backoff_factor w = (Ok outcome, w').
Proof.
  unfold _download_with_retry, range_from_1.
  destruct (retry_loop_run self url filename md image_id max_retries
              backoff_factor (Z.to_nat max_retries) 1 PNone w)
    as (outcomes & w_end & _ & _ & _ & _ & _ & Hres); [lia | lia |].
  destruct (last outcomes) as [o|];
    [destruct (settles o); [|destruct Hres as [_ Hres]]|];
    rewrite Hres; eauto.
Qed.

(** X7.  The counters count attempts, not items.  A run of the wrapper
    that makes [n] attempts raises the total of the four counters by
    [n] and sends at most [n] requests, with [n] at most [max_retries].
    When it ends in a success (or a skip) the failed counter has grown by
    [n - 1]; when it gives up, all [max_retries] attempts were made and
    the failed counter has grown by [max_retries]. *)
Theorem retry_counts_every_attempt w :
  exists outcome w' (n : nat),
    _download_with_retry self url filename md image_id max_retries
      backoff_factor w = (Ok outcome, w') /\
    (n <= Z.to_nat max_retries)%nat /\
    total_processed (counters w')
    = total_processed (counters w) + Z.of_nat n /\
    (length (requests w') <= length (requests w) + n)%nat /\
    (fst outcome = true ->
     (1 <= n)%nat /\
     failed_count (counters w')
     = failed_count (counters w) + Z.of_nat (n - 1)) /\
    (fst outcome = false ->
     n = Z.to_nat max_retries /\
     failed_count (counters w') = failed_count (counters w) + Z.of_nat n).
Proof.
  unfold _download_with_retry, range_from_1.
  destruct (retry_loop_run self url filename md image_id max_retries
              backoff_factor (Z.to_nat max_retries) 1 PNone w)
    as (outcomes & w_end & Hmade & Hlen & Hne & Hfail & _ & Hres);
    [lia | lia |].
  destruct (attempts_count _ _ _ _ Hmade) as (Ht & Hf & Hr & Hskip).
  assert (Hall : forall l : list (bool * string),
            Forall (fun o => settles o = false) l ->
            failures l = length l).
  { induction 1 as [|o l Ho _ IH]; [reflexivity|].
    cbn [List.filter length]. unfold settles in Ho.
    apply orb_false_iff in Ho as [-> _]. cbn [negb length].
    f_equal. exact IH. }
  destruct (last outcomes) as [o|] eqn:Hlast.
  - apply last_Some in Hlast as [front ->].
    rewrite removelast_last in Hfail.
    assert (Hn : length (front ++ [o]) = S (length front))
      by (rewrite length_app; cbn; lia).
    assert (Hfails : failures (front ++ [o])
                     = (length front + if fst o then 0 else 1)%nat).
    { rewrite List.filter_app, length_app, (Hall _ Hfail). cbn.
      destruct (fst o); reflexivity. }
    assert (Ho : fst o = false -> settles o = false).
    { rewrite Forall_forall in Hskip. apply Hskip.
      apply elem_of_app. right. apply list_elem_of_singleton. reflexivity. }
    rewrite Hn in *.
    destruct (settles o) eqn:Hset.
    + exists o, w_end, (S (length front)). rewrite Hres.
      split; [reflexivity|]. split; [exact Hlen|].
      split; [exact Ht|]. split; [exact Hr|].
      split.
      * intros Hsucc. split; [lia|]. rewrite Hf, Hfails, Hsucc. f_equal.
        lia.
      * intros Hfst. discriminate (Ho Hfst).
    + destruct Hres as [Hk Hres].
      exists (false, failed_after max_retries (PStr (snd o))),
             (with_log (fun l => l ++ [ErrorFailedAfter max_retries filename
                                         (PStr (snd o))]) w_end),
             (S (length front)).
      rewrite Hres. split; [reflexivity|]. split; [exact Hlen|].
      split; [exact Ht|]. split; [exact Hr|].
      split; [discriminate|]. intros _. split; [exact Hk|].
      cbn [counters with_log]. rewrite Hf, Hfails. f_equal.
      unfold settles in Hset. apply orb_false_iff in Hset as [-> _]. lia.
  - apply last_None in Hlast. subst outcomes.
    exists (false, failed_after max_retries PNone),
           (with_log (fun l => l ++ [ErrorFailedAfter max_retries filename
                                       PNone]) w), 0%nat.
    cbn [last] in Hres. rewrite Hres. split; [reflexivity|].
    assert (Z.to_nat max_retries = 0%nat) as Hz.
    { destruct (Z.to_nat max_retries); [reflexivity|].
      exfalso. apply Hne; [lia | reflexivity]. }
    cbn. rewrite Hz. repeat split; try lia; discriminate.
Qed.

End RetryCounts.

(** ** What the batch dispatcher returns and counts *)

Section BatchCounts.
Import Worker Dispatcher.
Variable self : Scraper.

(** The number of tasks of a batch: the items that carry a URL. *)
Lemma build_tasks_length items save_metadata :
  length (build_tasks items save_metadata)
  = length (List.filter (fun item => truthy (Item.url item)) items).
Proof.
  unfold build_tasks. induction items as [|item items IH]; [reflexivity|].
  cbn [omap list_omap List.filter].
  destruct (truthy (Item.url item)); cbn [length]; rewrite IH; reflexivity.
Qed.

(** What the pool runs for a task always returns. *)
Lemma run_task_returns t w :
  exists outcome w', run_task self t w = (Ok outcome, w').
Proof.
  unfold run_task. destruct (enable_retry self).
  - destruct (download_with_retry_returns self (task_url t)
                (task_filename t) (task_metadata t) (task_image_id t)
                (max_retries self) 2 w)
      as (outcome & w' & Hrun).
    eauto.
  - destruct (download_image_run self (task_url t) (task_filename t)
                (task_metadata t) (task_image_id t) w)
      as (outcome & w' & Hrun & _).
    eauto.
Qed.

(** Collecting a finished task changes no counter, and adds nothing to
    the count of successes when a progress bar is shown. *)
Lemma collect_run progress_bar t w :
  exists outcome w1 n w',
    run_task self t w = (Ok outcome, w1) /\
    collect self progress_bar t w = (Ok n, w') /\
    counters w' = counters w1 /\
    0 <= n <= 1 /\
    (progress_bar = true -> n = 0).
Proof.
  destruct (run_task_returns t w) as ([success status] & w1 & Hrun).
  exists (success, status), w1.
  unfold collect, try_except, bind at 1. rewrite Hrun.
  destruct progress_bar; [exists 0, w1; cbn; repeat split; lia|].
  destruct success.
  - destruct (String.eqb status "downloaded");
      [eexists 1, _; cbn; repeat split; try lia; discriminate|].
    destruct (String.prefix "skipped" status);
      eexists 0, _; cbn; repeat split; lia.
  - eexists 0, _; cbn; repeat split; lia.
Qed.

(** X8.  With a progress bar shown, [_download_batch] returns 0 whatever
    the outcomes of its tasks are: the count of successes is only kept
    on the branch without a bar. *)
Theorem batch_with_bar_returns_zero items save_metadata w :
  exists w', _download_batch self items save_metadata true w = (Ok 0, w').
Proof.
  unfold _download_batch. generalize (build_tasks items save_metadata).
  intros schedule. revert w.
  induction schedule as [|t rest IH]; intros w; [eexists; reflexivity|].
  destruct (collect_run true t w)
    as (outcome & w1 & n & w' & _ & Hcollect & _ & _ & Hzero).
  destruct (IH w') as [w'' Hrest].
  exists w''. cbn [run_batch]. unfold bind.
  rewrite Hcollect, Hrest, (Hzero eq_refl). reflexivity.
Qed.


End BatchCounts.

(** ** The sniffer reads twelve bytes *)

Section SnifferReach.
Import Bytes Sniffer.

Lemma startswith_take n p data :
  (length p <= n)%nat -> startswith p (take n data) = startswith p data.
Proof.
  revert n data. induction p as [|x p IH]; intros n data Hn;
    [destruct (take n data), data; reflexivity|].
  destruct n as [|n]; [cbn in Hn; lia|].
  destruct data as [|y data]; [reflexivity|].
  cbn [take startswith]. rewrite IH by (cbn in Hn; lia). reflexivity.
Qed.

Lemma slice_take n a b data :
  (b <= n)%nat -> slice a b (take n data) = slice a b data.
Proof.
  intros Hb. unfold slice.
  rewrite skipn_firstn_comm, take_take. f_equal. lia.
Qed.

(** X10.  The classification depends on the first twelve bytes of the
    payload only: whatever follows them cannot change the result. *)
Theorem sniffer_reads_twelve_bytes (data : bytes) :
  _detect_image_format (take 12 data) = _detect_image_format data.
Proof.
  unfold _detect_image_format.
  rewrite !slice_take by lia.
  rewrite !startswith_take by (cbn; lia).
  replace (slice 0 12 (take 12 data)) with (slice 0 12 data)
    by (symmetry; apply slice_take; lia).
  reflexivity.
Qed.

(** X11.  The sniffer returns one of seven extensions, and it flags a
    payload as a video exactly when the extension is .mp4, .webm or
    .flv. *)
Theorem sniffer_video_flag (data : bytes) :
  In (fst (_detect_image_format data))
     [".mp4"; ".webm"; ".flv"; ".png"; ".jpg"; ".webp"; ".gif"] /\
  (snd (_detect_image_format data) = true <->
   In (fst (_detect_image_format data)) [".mp4"; ".webm"; ".flv"]).
Proof.
  unfold _detect_image_format.
  repeat match goal with
         | |- context [if ?b then _ else _] => destruct b
         end; cbn;
    (split; [tauto|]); split; try tauto; try discriminate;
    intros H; repeat (destruct H as [H | H]; [discriminate H|]);
    contradiction.
Qed.

End SnifferReach.

(** ** Rating buckets *)

Section FolderFacts.
Import Rating.


(** A digit behind the separator 0x1f is not an integer for [int]: the
    value is an unknown label, and the file goes to SFW with a
    warning. *)
Lemma nsfw_folder_separator :
  Rating._get_nsfw_folder (PStr (String "031"%char "6"))
  = ("SFW", [WarnUnknownNsfw (PStr (String "031"%char "6"))]) /\
  Rating._get_nsfw_folder (PStr " 6 ") = ("NSFW", []).
Proof. split; reflexivity. Qed.

End FolderFacts.

(** ** The page filters together *)

Section FilterComposition.
Import Filters.

(** X13.  The reactions filter.  With a minimum configured (not 0) it
    keeps exactly the items that have a stats object whose like, heart,
    laugh and cry counts sum to the minimum or more; the comment count
    plays no part, and an item without stats is dropped whatever the
    minimum is. *)
Theorem filter_min_reactions_spec (threshold : Z) (items : list Item.t) :
  threshold <> 0 ->
  forall item,
    In item (filter_min_reactions (Some threshold) items) <->
    In item items /\
    exists s,
      Item.stats item = Some s /\
      threshold <= Stats.likeCount s + Stats.heartCount s
                   + Stats.laughCount s + Stats.cryCount s.
Proof.
  intros Hconf item. unfold filter_min_reactions.
  apply Z.eqb_neq in Hconf. rewrite Hconf.
  rewrite filter_In. unfold reactions_keep.
  destruct (Item.stats item) as [s|].
  - rewrite Z.leb_le. split.
    + intros [Hin H]. split; [exact Hin|]. exists s. auto.
    + intros [Hin (s' & [= <-] & H)]. auto.
  - split; [intros [_ H]; discriminate H|].
    intros [_ (s & H & _)]. discriminate H.
Qed.

(** X14.  The filtering step as a whole.  An item leaves the step exactly
    when it is on the page and passes every filter that is configured;
    the step keeps the page order and adds nothing, and with no filter
    configured (also with thresholds of 0) it leaves the page as it
    is. *)
Theorem filter_page_spec nsfw_only min_resolution min_reactions items :
  (forall item,
     In item (filter_page nsfw_only min_resolution min_reactions items) <->
     In item items /\
     (nsfw_only = true -> nsfw_only_keep item = true) /\
     (forall t, min_resolution = Some t -> t <> 0 ->
                resolution_keep t item = true) /\
     (forall t, min_reactions = Some t -> t <> 0 ->
                reactions_keep t item = true)) /\
  sublist (filter_page nsfw_only min_resolution min_reactions items) items /\
  filter_page false None None items = items /\
  filter_page false (Some 0) (Some 0) items = items.
Proof.
  assert (Hsub : forall (f : Item.t -> bool) l, sublist (List.filter f l) l).
  { intros f l. induction l as [|x l IH]; cbn; [constructor|].
    destruct (f x); constructor; exact IH. }
  split; [|split; [|split; reflexivity]].
  - intros item. unfold filter_page, filter_min_reactions,
      filter_min_resolution, filter_nsfw_only.
    destruct min_reactions as [r|], min_resolution as [m|], nsfw_only;
      repeat match goal with
             | |- context [?t =? 0] => destruct (Z.eqb_spec t 0)
             end;
      rewrite ?filter_In; split.
    all: try (intros H; repeat match goal with
                               | H : _ /\ _ |- _ => destruct H
                               end;
              repeat split; auto; try discriminate;
              intros ? [= <-] ?; auto; congruence).
    all: intros (Hin & H1 & H2 & H3); repeat split; auto.
  - unfold filter_page, filter_min_reactions, filter_min_resolution,
      filter_nsfw_only.
    destruct min_reactions as [r|], min_resolution as [m|], nsfw_only;
      repeat match goal with
             | |- context [?t =? 0] => destruct (Z.eqb_spec t 0)
             end;
      repeat (etransitivity; [apply Hsub|]); reflexivity.
Qed.

End FilterComposition.

(** ** The ledger upsert *)

Section LedgerFacts.
Import Ledger.



End LedgerFacts.

(** ** The name and the recorded type of a stored file *)

Section StoredName.
Import Worker Ledger Sniffer Dispatcher.
Variable self : Scraper.




End StoredName.

(** ** How far a task and a batch can raise the download counter *)

Section DownloadedGrowth.
Import Worker Dispatcher.
Variable self : Scraper.

Local Abbreviation got w := (downloaded_count (counters w)).

Lemma return_path_downloaded c outcome c' :
  return_path c outcome c' ->
  downloaded_count c <= downloaded_count c' <= downloaded_count c + 1 /\
  (settles outcome = false -> downloaded_count c' = downloaded_count c).
Proof.
  intros []; cbn; (split; [lia|]); intros H; try discriminate H; reflexivity.
Qed.

Lemma retry_loop_downloaded url filename md image_id max_retries
    backoff_factor attempts last_error w :
  exists outcome w',
    retry_loop self url filename md image_id max_retries backoff_factor
      attempts last_error w = (Ok outcome, w') /\
    got w <= got w' <= got w + 1.
Proof.
  revert last_error w.
  induction attempts as [|n rest IH]; intros last_error w.
  - eexists _, _. split; [reflexivity|]. cbn. lia.
  - destruct (download_image_run self url filename md image_id w)
      as (o & w1 & Hrun & Hpath & _).
    rewrite (retry_loop_step self url filename md image_id max_retries
               backoff_factor n rest last_error w o w1 Hrun).
    destruct (return_path_downloaded _ _ _ Hpath) as [Hb Hs].
    destruct (settles o) eqn:E; [eauto|].
    destruct (IH (PStr (snd o))
                (paused filename max_retries backoff_factor n (snd o) w1))
      as (o' & w' & Hloop & Hb').
    exists o', w'. split; [exact Hloop|].
    destruct (paused_frame filename max_retries backoff_factor n (snd o) w1)
      as [Hc _].
    rewrite Hc in Hb'. rewrite (Hs eq_refl) in Hb'. exact Hb'.
Qed.

Lemma run_task_downloaded t w :
  exists outcome w',
    run_task self t w = (Ok outcome, w') /\ got w <= got w' <= got w + 1.
Proof.
  unfold run_task. destruct (enable_retry self).
  - apply retry_loop_downloaded.
  - destruct (download_image_run self (task_url t) (task_filename t)
                (task_metadata t) (task_image_id t) w)
      as (o & w1 & Hrun & Hpath & _).
    exists o, w1. split; [exact Hrun|].
    apply (return_path_downloaded _ _ _ Hpath).
Qed.

Lemma run_batch_downloaded progress_bar schedule w :
  exists n w',
    run_batch self progress_bar schedule w = (Ok n, w') /\
    got w <= got w' <= got w + Z.of_nat (length schedule).
Proof.
  revert w. induction schedule as [|t rest IH]; intros w.
  - exists 0, w. split; [reflexivity|]. cbn. lia.
  - destruct (collect_run self progress_bar t w)
      as (outcome & w1 & n & w' & Hrun & Hcollect & Hc & _).
    destruct (run_task_downloaded t w) as (o & w0 & Hrun' & Hb).
    rewrite Hrun in Hrun'. injection Hrun' as <- <-.
    destruct (IH w') as (m & w'' & Hrest & Hb').
    exists (n + m), w''. cbn [run_batch]. unfold bind.
    rewrite Hcollect, Hrest. split; [reflexivity|].
    rewrite Hc in Hb'. cbn [length]. lia.
Qed.

(** A batch always returns, and it raises the download counter by at
    most the number of its items. *)
Lemma download_batch_downloaded items save_metadata progress_bar w :
  exists n w',
    _download_batch self items save_metadata progress_bar w = (Ok n, w') /\
    got w <= got w' <= got w + Z.of_nat (length items).
Proof.
  unfold _download_batch.
  destruct (run_batch_downloaded progress_bar
              (build_tasks items save_metadata) w)
    as (n & w' & Hrun & Hb).
  exists n, w'. split; [exact Hrun|].
  rewrite build_tasks_length in Hb.
  pose proof (List.filter_length_le (fun item => truthy (Item.url item))
                items).
  lia.
Qed.

End DownloadedGrowth.

(** ** The page loop *)

Section PageLoop.
Import Worker Dispatcher Filters Pagination.
Variable self : Scraper.
Variable api : nat -> Params.t -> api_response.

Local Abbreviation got w := (downloaded_count (counters w)).

Lemma filter_page_length nsfw_only min_resolution min_reactions l :
  (length (filter_page nsfw_only min_resolution min_reactions l)
   <= length l)%nat.
Proof.
  unfold filter_page.
  transitivity (length (filter_min_resolution min_resolution
                          (filter_nsfw_only nsfw_only l))).
  { unfold filter_min_reactions.
    destruct min_reactions as [m|]; [destruct (m =? 0)|];
      auto using List.filter_length_le. }
  transitivity (length (filter_nsfw_only nsfw_only l)).
  { unfold filter_min_resolution.
    destruct min_resolution as [r|]; [destruct (r =? 0)|];
      auto using List.filter_length_le. }
  unfold filter_nsfw_only.
  destruct nsfw_only; auto using List.filter_length_le.
Qed.

Lemma fetch_images_asked q p :
  asked (snd (fetch_images api q p)) = asked p ++ [q].
Proof.
  unfold fetch_images. destruct (api _ _) as [e|r he j]; [reflexivity|].
  destruct (rate_limit_check r); [destruct he|]; reflexivity.
Qed.

Lemma fetch_images_frame q p :
  cursor (snd (fetch_images api q p)) = cursor p /\
  page (snd (fetch_images api q p)) = page p /\
  delays (snd (fetch_images api q p)) = delays p.
Proof.
  unfold fetch_images. destruct (api _ _) as [e|r he j]; [auto|].
  destruct (rate_limit_check r); [destruct he|]; auto.
Qed.


(** The header at its edges: a count under 10 is logged, a count behind
    the separator 0x1f makes the call raise. *)
Lemma fetch_images_header_edges q :
  fetch_images (limited "5" [] PNone) q start
  = (Ok (Some {| items := Some []; nextCursor := PNone |}),
     {| cursor := PNone; page := 1; asked := [q];
        api_log := [WarningRateLimitLow "5"]; delays := 0 |}) /\
  fst (fetch_images (limited (String "031"%char "5") [] PNone) q start)
  = Raise "ValueError".
Proof. split; reflexivity. Qed.

Section Loop.
Variable args : ScrapeArgs.

Local Abbreviation step := (scrape_step self api args).

(** What every query of a run looks like. *)
Local Abbreviation well_formed :=
  (fun q : Params.t =>
     Params.limit q <= 200 /\
     (endless args = true \/ (exists m, max_images args = Some m /\ 0 < m) ->
      1 <= Params.limit q) /\
     Params.sort q = sort args /\
     Params.period q = period args /\
     Params.nsfw q = optional (nsfw args) /\
     Params.postId q = None).

(** The query of an iteration that gets as far as the API. *)
Lemma page_query_well_formed w limit c :
  target_reached args w = false ->
  page_limit args w = Ok limit ->
  well_formed (build_query_params limit (sort args) (period args)
                 (nsfw args) (username args) (modelId args) PNone c).
Proof.
  unfold target_reached, page_limit. intros Ht Hl. cbn.
  split; [lia|]. split; [|auto].
  intros Hmode. destruct (endless args).
  - injection Hl as <-. lia.
  - destruct Hmode as [H | (m & Hm & Hpos)]; [discriminate H|].
    rewrite Hm in Ht, Hl. injection Hl as <-. cbn in Ht.
    destruct (m =? 0) eqn:Hz; [lia|]. cbn in Ht. lia.
Qed.

Lemma scrape_step_shape p w : step_shape self api args p w (step p w).
Proof.
  unfold scrape_step.
  destruct (target_reached args w) eqn:Ht; [constructor; exact Ht|].
  destruct (page_limit args w) as [limit|e] eqn:Hl;
    [|constructor; assumption].
  set (q := build_query_params _ _ _ _ _ _ _ _).
  destruct (fetch_images api q p) as [[[d|]|e] p1] eqn:Hf.
  - destruct (items d) as [[|item rest]|] eqn:Hi.
    + eapply shape_no_items; eauto 6.
    + destruct (filter_page _ _ _ (item :: rest)) as [|k kept] eqn:Hk.
      * eapply shape_filtered; eauto.
      * destruct (download_batch_downloaded self (k :: kept)
                    (save_metadata args) (progress_bar args) w)
          as (n & w' & Hb & _).
        rewrite Hb.
        pose proof (shape_batch self api args p w limit q d (item :: rest) p1 n w'
                      Ht Hl eq_refl Hf Hi) as H.
        rewrite Hk in H. specialize (H ltac:(discriminate) Hb).
        destruct (truthy (nextCursor d)); exact H.
    + eapply shape_no_items; eauto 6.
  - eapply shape_no_items; eauto.
  - eapply shape_fetch_raises; eauto.
Qed.

Lemma fetch_images_body q p d p1 :
  fetch_images api q p = (Ok (Some d), p1) ->
  exists r, api (length (asked p)) q = ApiAnswer r None (Some d).
Proof.
  unfold fetch_images.
  destruct (api (length (asked p)) q) as [e|r he j]; [discriminate|].
  destruct (rate_limit_check r); [|discriminate].
  destruct he; [discriminate|].
  intros H. injection H as -> _. eauto.
Qed.

(** An iteration sends at most one query, and a well-formed one. *)
Lemma scrape_step_asked p w :
  exists new,
    asked (fst (snd (step p w))) = asked p ++ new /\
    (length new <= 1)%nat /\
    Forall well_formed new.
Proof.
  assert (Hone : forall limit q data p1,
            target_reached args w = false ->
            page_limit args w = Ok limit ->
            q = build_query_params limit (sort args) (period args)
                  (nsfw args) (username args) (modelId args) PNone
                  (cursor p) ->
            fetch_images api q p = (data, p1) ->
            asked p1 = asked p ++ [q] /\ (length [q] <= 1)%nat /\
            Forall well_formed [q]).
  { intros limit q data p1 Ht Hl -> Hf.
    pose proof (fetch_images_asked
                  (build_query_params limit (sort args) (period args)
                     (nsfw args) (username args) (modelId args) PNone
                     (cursor p)) p) as Ha.
    rewrite Hf in Ha. split; [exact Ha|]. split; [cbn; lia|].
    constructor; [|constructor].
    apply (page_query_well_formed w limit (cursor p) Ht Hl). }
  destruct (scrape_step_shape p w)
    as [Ht | e Ht Hl | limit q e p1 Ht Hl Hq Hf
        | limit q data p1 Ht Hl Hq Hf _
        | limit q d page_items p1 Ht Hl Hq Hf _ _ _
        | limit q d page_items p1 n w' Ht Hl Hq Hf _ _ _].
  - exists []. rewrite app_nil_r. cbn. auto.
  - exists []. rewrite app_nil_r. cbn. auto.
  - exists [q]. exact (Hone _ _ _ _ Ht Hl Hq Hf).
  - exists [q]. exact (Hone _ _ _ _ Ht Hl Hq Hf).
  - exists [q]. exact (Hone _ _ _ _ Ht Hl Hq Hf).
  - exists [q]. destruct (truthy (nextCursor d));
      exact (Hone _ _ _ _ Ht Hl Hq Hf).
Qed.

(** X18.  The queries of a run: the loop only adds queries, at most one
    per iteration; each asks for at most 200 items, and for at least one
    in endless mode or with a positive target; each carries the sort,
    period and nsfw arguments of the call and no post id. *)
Theorem scrape_queries_well_formed fuel p w :
  exists new,
    asked (fst (snd (scrape_loop self api args fuel p w)))
    = asked p ++ new /\
    (length new <= fuel)%nat /\
    Forall well_formed new.
Proof.
  revert p w. induction fuel as [|fuel IH]; intros p w.
  - exists []. cbn. rewrite app_nil_r. auto.
  - cbn [scrape_loop].
    destruct (scrape_step_asked p w) as (new & Ha & Hlen & Hwf).
    destruct (step p w) as [[[|]|e] [p' w']]; cbn [fst snd] in Ha.
    + exists new. split; [exact Ha|]. split; [lia | exact Hwf].
    + destruct (IH p' w') as (new' & Ha' & Hlen' & Hwf').
      exists (new ++ new'). rewrite Ha', Ha, app_assoc.
      split; [reflexivity|]. rewrite length_app.
      split; [lia|]. apply Forall_app. auto.
    + exists new. split; [exact Ha|]. split; [lia | exact Hwf].
Qed.

(** X19.  Once the download counter has reached a non-zero target the
    loop ends before it asks the API: no query, no sleep, the world is
    left as it is. *)
Theorem scrape_stops_at_target m fuel p w :
  endless args = false ->
  max_images args = Some m ->
  m <> 0 ->
  m <= got w ->
  scrape_loop self api args (S fuel) p w = (Finished, (p, w)).
Proof.
  intros He Hm Hz Hreached. cbn [scrape_loop].
  unfold scrape_step, target_reached. rewrite He, Hm.
  destruct (m =? 0) eqn:E; [lia|].
  destruct (m <=? got w) eqn:E'; [reflexivity | lia].
Qed.

(** The query of an iteration that is not at its target. *)
Lemma page_limit_defined w :
  endless args = true \/
  (exists m, max_images args = Some m /\ (m = 0 \/ got w < m)) ->
  target_reached args w = false /\ exists limit, page_limit args w = Ok limit.
Proof.
  unfold target_reached, page_limit.
  intros [He | (m & Hm & Hlt)].
  - rewrite He. eauto.
  - rewrite Hm. split; [|destruct (endless args); eauto].
    destruct (endless args); [reflexivity|]. cbn.
    destruct (m =? 0) eqn:E; [reflexivity|].
    destruct (m <=? got w) eqn:E'; [lia | reflexivity].
Qed.

(** X20.  A page whose items are all filtered out is asked for again: the
    branch raises the page number but leaves the cursor as it is, so
    with an API that answers by cursor the loop repeats the same query
    on every iteration, without a sleep between the queries and without
    ever reaching its end. *)
Theorem filtered_page_is_asked_again page_items next p w :
  endless args = true \/
  (exists m, max_images args = Some m /\ (m = 0 \/ got w < m)) ->
  (forall n q,
     Params.cursor q = optional (cursor p) ->
     api n q = ApiAnswer None None
                 (Some {| items := Some page_items; nextCursor := next |})) ->
  page_items <> [] ->
  filter_page (nsfw_only args) (min_resolution args) (min_reactions args)
    page_items = [] ->
  exists q, forall fuel, exists p',
    scrape_loop self api args fuel p w = (StillRunning, (p', w)) /\
    cursor p' = cursor p /\
    page p' = page p + Z.of_nat fuel /\
    asked p' = asked p ++ repeat q fuel /\
    api_log p' = api_log p /\
    delays p' = delays p.
Proof.
  intros Hmode Hapi Hne Hfiltered.
  destruct (page_limit_defined w Hmode) as [Ht [limit Hl]].
  exists (build_query_params limit (sort args) (period args) (nsfw args)
            (username args) (modelId args) PNone (cursor p)).
  intros fuel. remember (cursor p) as c eqn:Hc.
  assert (Hcur : cursor p = c) by auto. clear Hc.
  revert p Hcur. induction fuel as [|fuel IH]; intros p Hcur.
  - exists p. cbn. rewrite app_nil_r.
    split; [reflexivity|]. split; [auto|]. split; [lia|]. auto.
  - cbn [scrape_loop]. unfold scrape_step. rewrite Ht, Hl.
    unfold fetch_images. rewrite Hapi by (cbn; rewrite Hcur; reflexivity).
    cbn [rate_limit_check items].
    destruct page_items as [|item rest]; [contradiction|].
    rewrite Hfiltered.
    match goal with
    | |- context [scrape_loop _ _ _ fuel ?p1 w] =>
        destruct (IH p1) as (p' & Hrun & Hc' & Hp' & Ha' & Hl' & Hd');
          [exact Hcur|]
    end.
    exists p'. split; [exact Hrun|].
    rewrite Hc', Hp', Ha', Hl', Hd'. cbn.
    rewrite Hcur, <- app_assoc, app_nil_r.
    split; [reflexivity|]. split; [lia|]. auto.
Qed.

(** X21.  A failed API request is not tried again: whether the request
    raised or the answer was an HTTP error, the loop logs one error and
    ends as if there were no more pages, without a download and without
    a sleep. *)
Theorem failed_fetch_ends_the_run e fuel p w :
  endless args = true \/
  (exists m, max_images args = Some m /\ (m = 0 \/ got w < m)) ->
  (forall q,
     api (length (asked p)) q = ApiError e \/
     exists j, api (length (asked p)) q = ApiAnswer None (Some e) j) ->
  exists p',
    scrape_loop self api args (S fuel) p w = (Finished, (p', w)) /\
    length (asked p') = S (length (asked p)) /\
    api_log p' = api_log p ++ [ErrorFetchingImages e] /\
    delays p' = delays p.
Proof.
  intros Hmode Hapi.
  destruct (page_limit_defined w Hmode) as [Ht [limit Hl]].
  cbn [scrape_loop]. unfold scrape_step. rewrite Ht, Hl.
  unfold fetch_images.
  destruct (Hapi (build_query_params limit (sort args) (period args)
                    (nsfw args) (username args) (modelId args) PNone
                    (cursor p))) as [H | [j H]]; rewrite H;
    cbn [rate_limit_check]; eexists; (split; [reflexivity|]); cbn;
    rewrite ?length_app, ?app_nil_r; cbn; (split; [lia|]); auto.
Qed.

(** An iteration of a counted run, with an API that returns no more
    items than asked for, keeps the download counter within the target. *)
Lemma scrape_step_within_target m p w :
  endless args = false ->
  max_images args = Some m ->
  (forall n q r d l,
     api n q = ApiAnswer r None (Some d) ->
     items d = Some l ->
     (length l <= Z.to_nat (Params.limit q))%nat) ->
  got w <= got (snd (snd (step p w))) <= Z.max m (got w).
Proof.
  intros He Hm Hhonest.
  destruct (scrape_step_shape p w)
    as [Ht | e Ht Hl | limit q e p1 Ht Hl Hq Hf
        | limit q data p1 Ht Hl Hq Hf _
        | limit q d page_items p1 Ht Hl Hq Hf _ _ _
        | limit q d page_items p1 n w' Ht Hl Hq Hf Hi Hk Hb];
    cbn [fst snd]; try lia.
  assert (Hw : got w <= got w' <= Z.max m (got w)).
  { destruct (fetch_images_body _ _ _ _ Hf) as [r Hanswer].
    pose proof (Hhonest _ _ _ _ _ Hanswer Hi) as Hlen.
    destruct (download_batch_downloaded self
                (filter_page (nsfw_only args) (min_resolution args)
                   (min_reactions args) page_items)
                (save_metadata args) (progress_bar args) w)
      as (n' & w'' & Hb' & Hgrow).
    rewrite Hb in Hb'. injection Hb' as <- <-.
    pose proof (filter_page_length (nsfw_only args) (min_resolution args)
                  (min_reactions args) page_items) as Hkept.
    unfold page_limit in Hl. rewrite He, Hm in Hl. injection Hl as <-.
    subst q. cbn [Params.limit build_query_params] in Hlen.
    lia. }
  destruct (truthy (nextCursor d)); cbn [fst snd]; exact Hw.
Qed.

(** X22.  A counted run never overshoots: with an API that returns no
    more items than the [limit] of the query, the download counter never
    passes the target, however many pages are processed.  (It never
    decreases either.) *)
Theorem counted_run_never_overshoots m fuel p w :
  endless args = false ->
  max_images args = Some m ->
  (forall n q r d l,
     api n q = ApiAnswer r None (Some d) ->
     items d = Some l ->
     (length l <= Z.to_nat (Params.limit q))%nat) ->
  got w
  <= got (snd (snd (scrape_loop self api args fuel p w)))
  <= Z.max m (got w).
Proof.
  intros He Hm Hhonest. revert p w.
  induction fuel as [|fuel IH]; intros p w; [cbn; lia|].
  cbn [scrape_loop].
  pose proof (scrape_step_within_target m p w He Hm Hhonest) as Hstep.
  destruct (step p w) as [[[|]|e] [p' w']]; cbn [fst snd] in *;
    try exact Hstep.
  specialize (IH p' w'). lia.
Qed.

End Loop.
End PageLoop.

(** ** The worker and the ledger *)

Section LedgerMonotone.
Import Worker Ledger.
Variable self : Scraper.

(** X23.  The worker never un-satisfies an identifier: whatever a call
    downloads, skips or fails at, every identifier that the ledger held
    as downloaded before the call is still held as downloaded after
    it. *)
Theorem satisfied_stays_satisfied url filename md image_id w other :
  is_downloaded other (db w) = true ->
  exists outcome w',
    download_image self url filename md image_id w = (Ok outcome, w') /\
    is_downloaded other (db w') = true.
Proof.
  intros Hsat.
  destruct (download_image_ledger self url filename md image_id w)
    as (outcome & w' & Hrun & Hkeep & _).
  exists outcome, w'. split; [exact Hrun | apply Hkeep; exact Hsat].
Qed.

End LedgerMonotone.

(** ** The text log across a restart *)

Section TextLogFacts.
Import Ledger TextLog.

Lemma printable_not_newline c : printable c = true -> is_newline c = false.
Proof.
  destruct c as [[] [] [] [] [] [] [] []]; vm_compute; congruence.
Qed.

Lemma printable_not_space c : printable c = true -> is_space c = false.
Proof.
  destruct c as [[] [] [] [] [] [] [] []]; vm_compute; congruence.
Qed.

Lemma read_lines_line l rest :
  forallb printable l = true ->
  read_lines (l ++ "010"%char :: rest) = l :: read_lines rest.
Proof.
  induction l as [|c l IH]; intros H; [reflexivity|].
  cbn in H. apply andb_true_iff in H as [Hc Hl].
  cbn [app read_lines]. rewrite (printable_not_newline c Hc), (IH Hl).
  reflexivity.
Qed.

Lemma read_lines_file lines :
  Forall (fun s => clean s = true) lines ->
  read_lines (file_text lines) = (chars <$> lines) ++ [[]].
Proof.
  unfold file_text. induction 1 as [|s lines Hs _ IH]; [reflexivity|].
  cbn [fmap list_fmap concat app]. rewrite <- app_assoc. cbn [app].
  unfold clean in Hs. apply andb_true_iff in Hs as [_ Hs].
  rewrite (read_lines_line _ _ Hs), IH. reflexivity.
Qed.

Lemma lstrip_printable l : forallb printable l = true -> lstrip l = l.
Proof.
  unfold lstrip. destruct l as [|c l]; [reflexivity|].
  cbn [forallb lstrip_by]. intros H.
  apply andb_true_iff in H as [Hc _].
  rewrite (printable_not_space c Hc). reflexivity.
Qed.

Lemma strip_printable l : forallb printable l = true -> strip l = l.
Proof.
  intros H. change (strip l) with (rev (lstrip (rev (lstrip l)))).
  rewrite (lstrip_printable l H).
  rewrite lstrip_printable; [apply rev_involutive|].
  apply forallb_forall. intros c Hc. apply in_rev in Hc.
  rewrite forallb_forall in H. apply H, Hc.
Qed.

(** A log of clean lines is read back as it was written. *)
Lemma load_clean_log w :
  Forall (fun s => clean s = true) (download_log w) ->
  _load_download_log w = list_to_set (download_log w).
Proof.
  intros Hclean. unfold _load_download_log.
  rewrite (read_lines_file _ Hclean). f_equal.
  induction Hclean as [|s lines Hs _ IH]; [reflexivity|].
  unfold clean in Hs. apply andb_true_iff in Hs as [Hne Hs].
  cbn [fmap list_fmap app List.filter]. rewrite (strip_printable _ Hs), Hne.
  cbn [fmap list_fmap]. rewrite string_of_list_ascii_of_string.
  f_equal. exact IH.
Qed.

Lemma uint_printable d :
  forallb printable (chars (NilEmpty.string_of_uint d)) = true.
Proof. induction d; cbn; auto. Qed.

(** The decimal text of an integer is clean. *)
Lemma decimal_clean z : clean (py_str (PInt z)) = true.
Proof.
  unfold clean, py_str, NilZero.string_of_int.
  destruct (Z.to_int z) as [d|d]; unfold NilZero.string_of_uint.
  - destruct d; try reflexivity; cbn [non_empty list_ascii_of_string];
      apply (uint_printable (_ d)).
  - destruct d; try reflexivity; cbn [non_empty list_ascii_of_string forallb];
      apply (uint_printable (_ d)).
Qed.

(** X24.  The text log survives a restart.  When the log holds clean
    lines only (not empty, printable characters without a space), what
    [_load_download_log] reads back is the set of the lines written.
    After [_log_download] has added an identifier that is an integer, or
    a clean text, to such a log, the set read back at the next start
    is the in-memory set, and it holds the identifier. *)
Theorem text_log_round_trip w image_id :
  Forall (fun s => clean s = true) (download_log w) ->
  downloaded_ids w = list_to_set (download_log w) ->
  (exists z, image_id = PInt z) \/ clean (py_str image_id) = true ->
  _load_download_log w = downloaded_ids w /\
  _load_download_log (snd (_log_download image_id w))
  = downloaded_ids (snd (_log_download image_id w)) /\
  py_str image_id ∈ _load_download_log (snd (_log_download image_id w)).
Proof.
  intros Hlog Hmem Hid.
  assert (Hclean : clean (py_str image_id) = true).
  { destruct Hid as [[z ->] | H]; [apply decimal_clean | exact H]. }
  split; [rewrite Hmem; apply load_clean_log; exact Hlog|].
  assert (Hafter : _load_download_log (snd (_log_download image_id w))
                   = downloaded_ids (snd (_log_download image_id w))).
  { rewrite load_clean_log.
    - cbn. rewrite Hmem, list_to_set_app_L. cbn.
      rewrite union_empty_r_L. reflexivity.
    - cbn. apply Forall_app. split; [exact Hlog|]. repeat constructor.
      exact Hclean. }
  split; [exact Hafter|]. rewrite Hafter. cbn.
  apply elem_of_union. right. apply elem_of_singleton. reflexivity.
Qed.

End TextLogFacts.

(* ===================================================================== *)
(** ** The further properties at sample runs *)
(* ===================================================================== *)

Section MoreSampleRuns.
Import Worker Ledger Dispatcher Samples Runs Sniffer Filters Pagination.
Import Fixtures.


(** The download of image 7 leaves the file of image 8 alone. *)
Lemma worker_keeps_existing_files_witness :
  exists outcome w',
    download_image steady "https://image.example/7.png" "civitai_7.tmp"
      None (PInt 7) (on_disk "downloads/civitai_8.png" png_payload)
    = (Ok outcome, w') /\
    files w' !! "downloads/civitai_8.png" = Some png_payload.
Proof.
  apply (worker_keeps_existing_files steady "https://image.example/7.png"
           "civitai_7.tmp" None (PInt 7)
           (on_disk "downloads/civitai_8.png" png_payload)
           "downloads/civitai_8.png" png_payload).
  - reflexivity.
  - discriminate.
  - intros stem H. apply (f_equal chars) in H.
    rewrite chars_append in H. apply (f_equal (@rev ascii)) in H.
    rewrite rev_app_distr in H. discriminate H.
Defined.


(** A stream that ends before its first chunk. *)
Lemma empty_payload_fails_witness :
  exists w',
    download_image (plain silent) "https://image.example/7.png"
      "civitai_7.tmp" None (PInt 7) fresh
    = (Ok (false, "error: empty file"), w') /\
    files w' = ∅ /\
    db w' = empty_db /\
    failed_count (counters w') = 1.
Proof.
  destruct (empty_payload_fails (plain silent) "https://image.example/7.png"
              "civitai_7.tmp" None (PInt 7) fresh [])
    as (w' & Hrun & Hfiles & Hdb & _ & _ & Hc);
    [reflexivity | reflexivity | reflexivity | left; reflexivity |].
  exists w'. split; [exact Hrun|]. rewrite Hfiles, Hdb, Hc.
  split; [apply delete_empty|]. split; reflexivity.
Defined.



(** A minimum of 10 reactions over a page of two. *)
Lemma filter_min_reactions_spec_witness :
  In (liked (PInt 7) 8 3)
     (filter_min_reactions (Some 10)
        [liked (PInt 7) 8 3; liked (PInt 8) 4 5]) <->
  In (liked (PInt 7) 8 3) [liked (PInt 7) 8 3; liked (PInt 8) 4 5] /\
  exists s,
    Item.stats (liked (PInt 7) 8 3) = Some s /\
    10 <= Stats.likeCount s + Stats.heartCount s + Stats.laughCount s
          + Stats.cryCount s.
Proof.
  apply (filter_min_reactions_spec 10
           [liked (PInt 7) 8 3; liked (PInt 8) 4 5]).
  lia.
Defined.


(** A target of 2 after two downloads. *)
Lemma scrape_stops_at_target_witness :
  scrape_loop steady unreachable (call (Some 2) false false None) 1 start
    after_first_run
  = (Finished, (start, after_first_run)).
Proof.
  apply (scrape_stops_at_target steady unreachable
           (call (Some 2) false false None) 2 0 start after_first_run);
    [reflexivity | reflexivity | lia | vm_compute; discriminate].
Defined.

(** A page of two unrated items under the adult-only filter. *)
Lemma filtered_page_is_asked_again_witness :
  exists q, forall fuel, exists p',
    scrape_loop steady (same_page two_items (PStr "c2"))
      (call (Some 5) false true None) fuel start fresh
    = (StillRunning, (p', fresh)) /\
    cursor p' = PNone /\
    page p' = 1 + Z.of_nat fuel /\
    asked p' = repeat q fuel /\
    api_log p' = [] /\
    delays p' = 0%nat.
Proof.
  apply (filtered_page_is_asked_again steady
           (same_page two_items (PStr "c2"))
           (call (Some 5) false true None) two_items (PStr "c2") start
           fresh).
  - right. exists 5. split; [reflexivity|]. right. reflexivity.
  - intros n q _. reflexivity.
  - discriminate.
  - reflexivity.
Defined.

(** The first query to an API that cannot be reached. *)
Lemma failed_fetch_ends_the_run_witness :
  exists p',
    scrape_loop steady unreachable (call (Some 5) false false None) 1 start
      fresh
    = (Finished, (p', fresh)) /\
    length (asked p') = 1%nat /\
    api_log p' = [ErrorFetchingImages "Connection refused"] /\
    delays p' = 0%nat.
Proof.
  apply (failed_fetch_ends_the_run steady unreachable
           (call (Some 5) false false None) "Connection refused" 0 start
           fresh).
  - right. exists 5. split; [reflexivity|]. right. reflexivity.
  - intros q. left. reflexivity.
Defined.

(** A target of 1 with pages of two items on offer. *)
Lemma counted_run_never_overshoots_witness :
  0 <= downloaded_count
         (counters
            (snd (snd (scrape_loop steady (honest two_items (PStr "c2"))
                         (call (Some 1) false false None) 3 start fresh))))
    <= 1.
Proof.
  apply (counted_run_never_overshoots steady (honest two_items (PStr "c2"))
           (call (Some 1) false false None) 1 3 start fresh).
  - reflexivity.
  - reflexivity.
  - intros n q r d l H Hi. unfold honest in H. injection H as _ <-.
    cbn in Hi. injection Hi as <-. rewrite length_take. lia.
Defined.

(** The download of image 8 with image 7 in the ledger. *)
Lemma satisfied_stays_satisfied_witness :
  exists outcome w',
    download_image steady "https://image.example/8.png" "civitai_8.tmp"
      None (PInt 8) (recorded "7") = (Ok outcome, w') /\
    is_downloaded (PInt 7) (db w') = true.
Proof.
  apply (satisfied_stays_satisfied steady "https://image.example/8.png"
           "civitai_8.tmp" None (PInt 8) (recorded "7") (PInt 7)).
  reflexivity.
Defined.

End MoreSampleRuns.

Section TextLogRun.
Import Ledger TextLog Samples.

(** The first identifier logged on the fresh world. *)
Lemma text_log_round_trip_witness :
  _load_download_log fresh = ∅ /\
  _load_download_log (snd (_log_download (PInt 7) fresh))
  = downloaded_ids (snd (_log_download (PInt 7) fresh)) /\
  "7" ∈ _load_download_log (snd (_log_download (PInt 7) fresh)).
Proof.
  apply (text_log_round_trip fresh (PInt 7)).
  - constructor.
  - reflexivity.
  - left. exists 7. reflexivity.
Defined.

End TextLogRun.
